(** * Web-Scrapper: the paginated catalogue fetch and the image download stage

    A shallow embedding of [scraper.py] and [suta_scraper.py].  Python values
    that come out of [response.json()] are modelled by the type [json];
    Python exceptions by the type [exn] and the error monad [result];
    dictionaries by stdpp's [gmap]; the network, the file system and the
    thread pool by explicit oracles that the functions take as arguments. *)

From Stdlib Require Import ZArith QArith Qcanon Ascii String.
From stdpp Require Import base numbers option list strings pretty
  countable gmap fin_maps fin_sets.

#[local] Set Warnings "-register-all".
Local Open Scope Z_scope.

(** ** Exceptions and the error monad *)

(** The exception classes the two scripts can meet.  [RequestException]
    stands for the whole [requests.RequestException] family (connection
    errors, timeouts, exhausted retries, [HTTPError] from
    [raise_for_status]).  [ValueError] is what [response.json()] raises on a
    body that is not JSON.  [TimeoutError] is the one of
    [concurrent.futures].  [UnicodeEncodeError], a [ValueError], is what
    writing a text with a lone surrogate to a utf-8 file raises;
    [RecursionError] is what [response.json()] raises on a body nested
    too deeply. *)
Inductive exn : Type :=
  | RequestException
  | ValueError
  | KeyError
  | IndexError
  | TypeError
  | AttributeError
  | OSError
  | TimeoutError
  | UnicodeEncodeError
  | RecursionError.

Inductive result (A : Type) : Type :=
  | Ok (a : A)
  | Raise (e : exn).
Arguments Ok {A} a.
Arguments Raise {A} e.

#[global] Instance result_ret : MRet result := λ A a, Ok a.

#[global] Instance result_bind : MBind result := λ A B k m,
  match m with
  | Ok a => k a
  | Raise e => Raise e
  end.

#[global] Instance result_fmap : FMap result := λ A B f m,
  match m with
  | Ok a => Ok (f a)
  | Raise e => Raise e
  end.

(** [except (requests.RequestException, ValueError)] *)
Definition is_RequestException (e : exn) : bool :=
  match e with RequestException => true | _ => false end.

Definition is_ValueError (e : exn) : bool :=
  match e with ValueError | UnicodeEncodeError => true | _ => false end.

(** ** Values parsed from JSON *)

(** What [json.loads] can return: [None], booleans, integers, finite
    floats, strings, lists, and dictionaries with string keys. *)
Inductive json : Type :=
  | JNull
  | JBool (b : bool)
  | JInt (n : Z)
  | JFloat (q : Qc)
  | JStr (s : string)
  | JList (l : list json)
  | JObj (m : gmap string json).

(** Python truthiness, as used by [if not products], [if p["images"]] and
    [if product["image"]]. *)
Definition truthy (v : json) : bool :=
  match v with
  | JNull => false
  | JBool b => b
  | JInt n => negb (Z.eqb n 0)
  | JFloat q => negb (Qeq_bool q 0)
  | JStr s => negb (String.eqb s "")
  | JList l => match l with [] => false | _ => true end
  | JObj m => negb (bool_decide (m = ∅))
  end.

(** [v[k]] with a string key. *)
Definition getitem_str (v : json) (k : string) : result json :=
  match v with
  | JObj m => match m !! k with Some x => Ok x | None => Raise KeyError end
  | _ => Raise TypeError
  end.

(** [v[0]]. *)
Definition getitem_0 (v : json) : result json :=
  match v with
  | JList l => match l with x :: _ => Ok x | [] => Raise IndexError end
  | JStr s =>
      match s with
      | String c _ => Ok (JStr (String c EmptyString))
      | EmptyString => Raise IndexError
      end
  | JObj _ => Raise KeyError
  | _ => Raise TypeError
  end.

(** [data.get(k, default)]: only dictionaries have a [get] method. *)
Definition get_default (v : json) (k : string) (d : json) : result json :=
  match v with
  | JObj m => Ok (default d (m !! k))
  | _ => Raise AttributeError
  end.

Fixpoint chars (s : string) : list json :=
  match s with
  | EmptyString => []
  | String c s' => JStr (String c EmptyString) :: chars s'
  end.

(** [for p in v]: the sequence of values the loop variable takes.  A
    dictionary yields its keys; their order is the one of the [gmap], not
    the insertion order. *)
Definition iterate (v : json) : result (list json) :=
  match v with
  | JList l => Ok l
  | JStr s => Ok (chars s)
  | JObj m => Ok (JStr <$> (map_to_list m).*1)
  | _ => Raise TypeError
  end.

(** ** The HTTP session and one page request *)

(** What [session.get(url, timeout=10)] gives back once the retries mounted
    by [create_session] are over: either it raises (no usable reply), or a
    reply with a status code and a body; [body = None] stands for a body
    on which [response.json()] raises [ValueError] (a [JSONDecodeError]).
    [ReplyTooDeep] is a reply whose body is nested so deeply that
    [response.json()] raises [RecursionError] instead. *)
Inductive http_reply : Type :=
  | NoReply
  | Reply (status : Z) (body : option json)
  | ReplyTooDeep (status : Z).

(** [response.raise_for_status()] raises [HTTPError], a
    [RequestException], for the client and server error codes. *)
Definition raise_for_status (status : Z) : result unit :=
  if bool_decide (400 ≤ status < 600) then Raise RequestException else Ok ().

(** The body of the [try] block of [fetch_products]. *)
Definition get_json (get : string → http_reply) (url : string) : result json :=
  match get url with
  | NoReply => Raise RequestException
  | Reply status body =>
      _ ← raise_for_status status;
      match body with
      | Some data => Ok data
      | None => Raise ValueError
      end
  | ReplyTooDeep status =>
      _ ← raise_for_status status;
      Raise RecursionError
  end.

(** [f"{base_url}?limit=250&page={page}"] *)
Definition page_url (base_url : string) (page : nat) : string :=
  base_url +:+ "?limit=250&page=" +:+ pretty page.

(** How a run of the [while True] loop ends: the function returns, an
    exception leaves it, or the model runs out of fuel. *)
Inductive run (A : Type) : Type :=
  | Returns (a : A)
  | Escapes (e : exn)
  | OutOfFuel.
Arguments Returns {A} a.
Arguments Escapes {A} e.
Arguments OutOfFuel {A}.

Section fetch.
Context {A : Type}.
Variable base_url : string.
(** The body of [for p in products], up to the [append]. *)
Variable normalize : json → result A.
Variable get : string → http_reply.

(** The loop of [fetch_products].  [requested] collects the URLs passed
    to [session.get], oldest first. *)
Fixpoint fetch_loop (fuel : nat) (page : nat) (all_products : list A)
    (requested : list string) : list string * run (list A) :=
  match fuel with
  | O => (requested, OutOfFuel)
  | S fuel' =>
      let url := page_url base_url page in
      let requested := requested ++ [url] in
      match get_json get url with
      | Raise e =>
          if is_RequestException e || is_ValueError e
          then (requested, Returns all_products)
          else (requested, Escapes e)
      | Ok data =>
          match get_default data "products" (JList []) with
          | Raise e => (requested, Escapes e)
          | Ok products =>
              if negb (truthy products) then (requested, Returns all_products)
              else
                match iterate products ≫= mapM normalize with
                | Raise e => (requested, Escapes e)
                | Ok records =>
                    fetch_loop fuel' (S page) (all_products ++ records) requested
                end
          end
      end
  end.

Definition fetch_products_with (fuel : nat) : list string * run (list A) :=
  fetch_loop fuel 1%nat [] [].
End fetch.

(** [image_url = p["images"][0]["src"] if p["images"] else None] *)
Definition first_image_src (p : json) : result json :=
  images ← getitem_str p "images";
  if truthy images then
    images ← getitem_str p "images";
    first ← getitem_0 images;
    getitem_str first "src"
  else Ok JNull.

(** [p["variants"][0]["price"]] *)
Definition first_variant_price (p : json) : result json :=
  variants ← getitem_str p "variants";
  first ← getitem_0 variants;
  getitem_str first "price".

(** The newline character and ["-" * n]. *)
Definition nl : string := String "010"%char EmptyString.

Fixpoint str_repeat (s : string) (n : nat) : string :=
  match n with
  | O => EmptyString
  | S n' => s +:+ str_repeat s n'
  end.

(** ** The report file *)

(** Strings hold the UTF-8 bytes of the Python text.  A lone surrogate,
    which [json.loads] accepts from an escape such as [\ud800], is kept as
    the three bytes of its code point: 237, then a byte from 160 to 191,
    then one more.  Well-formed UTF-8 never has 237 followed by such a
    byte, and the utf-8 codec refuses to encode a lone surrogate. *)
Definition is_surrogate_start (a b : ascii) : bool :=
  Nat.eqb (nat_of_ascii a) 237
  && Nat.leb 160 (nat_of_ascii b) && Nat.leb (nat_of_ascii b) 191.

Fixpoint has_lone_surrogate (s : string) : bool :=
  match s with
  | EmptyString => false
  | String a s' =>
      match s' with
      | String b _ => is_surrogate_start a b
      | EmptyString => false
      end
      || has_lone_surrogate s'
  end.

(** The texts of the [f.write] calls that come before the first one that
    cannot be encoded. *)
Fixpoint encodable_prefix (lines : list string) : list string :=
  match lines with
  | [] => []
  | line :: rest =>
      if has_lone_surrogate line then [] else line :: encodable_prefix rest
  end.

(** The outside world of the report file: whether
    [open(output_file, "w", encoding="utf-8")] succeeds, and whether the
    device stores the texts written (no I/O error in a write, a flush or
    the close). *)
Record output_env : Type := OutputEnv {
  output_opens : bool;
  output_stores : list string → bool
}.

(** What the [with open(...) as f] block of [save_products] does with the
    texts [lines] of its [f.write] calls.  A write encodes its text before
    it buffers it, so the text with a lone surrogate raises
    [UnicodeEncodeError] and is not written; leaving the block closes the
    file, which stores what was written before. *)
Definition write_file (out : output_env) (lines : list string) : result unit :=
  if negb (output_opens out) then Raise OSError
  else if negb (output_stores out (encodable_prefix lines)) then Raise OSError
  else if bool_decide (encodable_prefix lines = lines) then Ok ()
  else Raise UnicodeEncodeError.

(** ** scraper.py *)
Module Scraper.
Record product : Type := Product {
  title : json;
  price : json;
  image_url : json;
  url : string
}.

Definition base_url : string :=
  "https://suta.in/collections/gift-box/products.json".

Section with_str.
(** Python's [str], used by the f-strings. *)
Variable py_str : json → string.

Definition normalize (p : json) : result product :=
  image_url ← first_image_src p;
  title ← getitem_str p "title";
  price ← first_variant_price p;
  handle ← getitem_str p "handle";
  Ok (Product title price image_url
        ("https://suta.in/products/" +:+ py_str handle)).

Definition fetch_products (get : string → http_reply) (fuel : nat)
  : list string * run (list product) :=
  fetch_products_with base_url normalize get fuel.

(** The five [f.write] calls for one product. *)
Definition write_product (product : product) : list string :=
  ["Name: " +:+ py_str (title product) +:+ nl;
   "Price: ₹" +:+ py_str (price product) +:+ nl;
   "URL: " +:+ url product +:+ nl;
   if truthy (image_url product)
   then "Image URL: " +:+ py_str (image_url product) +:+ nl
   else "No image available" +:+ nl;
   str_repeat "-" 40 +:+ nl].

(** The texts that [save_products] passes to [f.write], in order. *)
Definition save_products (products : list product) : list string :=
  concat (write_product <$> products).

(** The [__main__] block: the products are fetched, and their report is
    written to the output file [out]. *)
Definition main (get : string → http_reply) (fuel : nat) (out : output_env)
  : run (list string) :=
  match (fetch_products get fuel).2 with
  | Returns products =>
      match write_file out (save_products products) with
      | Ok _ => Returns (save_products products)
      | Raise e => Escapes e
      end
  | Escapes e => Escapes e
  | OutOfFuel => OutOfFuel
  end.
End with_str.
End Scraper.

(** ** Library functions used by suta_scraper.py *)

(** [s.rfind(c)]: the index of the last occurrence of [c], or [-1]. *)
Fixpoint rfind_from (c : ascii) (s : string) (i last : Z) : Z :=
  match s with
  | EmptyString => last
  | String a s' => rfind_from c s' (i + 1) (if Ascii.eqb a c then i else last)
  end.

Definition rfind (c : ascii) (s : string) : Z := rfind_from c s 0 (-1).

(** [s[:n]] and [s[n:]] for [0 <= n]. *)
Fixpoint string_take (n : nat) (s : string) : string :=
  match n, s with
  | S n', String a s' => String a (string_take n' s')
  | _, _ => EmptyString
  end.

Fixpoint string_drop (n : nat) (s : string) : string :=
  match n, s with
  | S n', String _ s' => string_drop n' s'
  | _, _ => s
  end.

(** The [while filenameIndex < dotIndex] loop of [genericpath._splitext]:
    is there a character other than [.] among the [count] characters of
    [s]? *)
Fixpoint has_non_dot (count : nat) (s : string) : bool :=
  match count, s with
  | S count', String a s' =>
      if Ascii.eqb a "."%char then has_non_dot count' s' else true
  | _, _ => false
  end.

(** The two flavours of [os.path]: [posixpath] has [sep = "/"] and no
    [altsep]; [ntpath] has [sep = "\"] and [altsep = "/"]. *)
Record os_path : Type := OsPath {
  sep : ascii;
  altsep : option ascii
}.

Definition posixpath : os_path := OsPath "/"%char None.
Definition ntpath : os_path := OsPath "\"%char (Some "/"%char).

(** [os.path.splitext(p)], after [genericpath._splitext]. *)
Definition splitext (os : os_path) (p : string) : string * string :=
  let sepIndex := rfind (sep os) p in
  let sepIndex :=
    match altsep os with
    | Some a => Z.max sepIndex (rfind a p)
    | None => sepIndex
    end in
  let dotIndex := rfind "."%char p in
  if bool_decide (dotIndex > sepIndex)
     && has_non_dot (Z.to_nat (dotIndex - (sepIndex + 1)))
          (string_drop (Z.to_nat (sepIndex + 1)) p)
  then (string_take (Z.to_nat dotIndex) p, string_drop (Z.to_nat dotIndex) p)
  else (p, EmptyString).

(** [s.split(c)[0]]: what comes before the first [c]. *)
Fixpoint split_head (c : ascii) (s : string) : string :=
  match s with
  | EmptyString => EmptyString
  | String a s' => if Ascii.eqb a c then EmptyString else String a (split_head c s')
  end.

(** [a or b] on strings. *)
Definition str_or (a b : string) : string :=
  if String.eqb a "" then b else a.

(** *** Dictionary keys *)

(** The keys of a Python [dict] up to [==]: [True == 1 == 1.0], so all
    numbers are one kind of key.  Lists and dictionaries are not hashable. *)
Inductive key : Type :=
  | KNone
  | KNum (q : Qc)
  | KStr (s : string).

#[global] Instance key_eq_dec : EqDecision key.
Proof. solve_decision. Defined.

#[global] Instance key_countable : Countable key.
Proof.
  refine (inj_countable'
    (λ k, match k with
          | KNone => inl ()
          | KNum q => inr (inl q)
          | KStr s => inr (inr s)
          end)
    (λ x, match x with
          | inl _ => KNone
          | inr (inl q) => KNum q
          | inr (inr s) => KStr s
          end) _).
  by intros [].
Defined.

(** [hash(v)], as needed to use [v] as a dictionary key. *)
Definition hash_key (v : json) : result key :=
  match v with
  | JNull => Ok KNone
  | JBool b => Ok (KNum (if b then 1%Qc else 0%Qc))
  | JInt n => Ok (KNum (Q2Qc (inject_Z n)))
  | JFloat q => Ok (KNum q)
  | JStr s => Ok (KStr s)
  | JList _ | JObj _ => Raise TypeError
  end.

(** ** suta_scraper.py *)

(** What [requests.get(url, stream=True, timeout=10)] and the streaming
    of the body give: no reply at all, or a status code and the chunks that
    [iter_content] yields; [complete = false] when the stream breaks after
    these chunks. *)
Inductive image_reply : Type :=
  | ImgNoReply
  | ImgReply (status : Z) (chunks : list string) (complete : bool).

(** The outside world of one download task: the network and whether
    [open(filename, 'wb')] succeeds. *)
Record download_env : Type := DownloadEnv {
  http_get : string → image_reply;
  can_open : string → bool
}.

(** The effects of one download task, in order. *)
Inductive event : Type :=
  | FileOpened (filename : string)
  | ChunkWritten (filename : string) (chunk : string)
  | LogWarning (url : json)
  | LogError (url : json).

(** Every exception class modelled here derives from [Exception]. *)
Definition is_Exception (e : exn) : bool := true.

Module SutaScraper.
Record product : Type := Product {
  id : json;
  title : json;
  price : json;
  image : json;
  url : string
}.

Definition base_url : string :=
  "https://suta.in/collections/lehengas/products.json".

Section with_os.
(** Python's [str], used by the f-strings. *)
Variable py_str : json → string.
(** The [os.path] of the platform and the module constant
    [IMAGE_FOLDER]. *)
Variable os : os_path.
Variable IMAGE_FOLDER : string.

Definition normalize (p : json) : result product :=
  image_url ← first_image_src p;
  id ← getitem_str p "id";
  title ← getitem_str p "title";
  price ← first_variant_price p;
  handle ← getitem_str p "handle";
  Ok (Product id title price image_url
        ("https://suta.in/products/" +:+ py_str handle)).

Definition fetch_products (get : string → http_reply) (fuel : nat)
  : list string * run (list product) :=
  fetch_products_with base_url normalize get fuel.

(** [ext = os.path.splitext(url)[1].split('?')[0] or '.jpg'] *)
Definition extension (url : string) : string :=
  str_or (split_head "?"%char (splitext os url).2) ".jpg".

(** The body of the [try] block of [download_image]: the effects it
    has, and the file name it returns or the exception it raises.
    [os.path.splitext] raises [TypeError] on anything but a string.  An
    I/O error of [f.write] or of the close of the file, after the file has
    been opened, is not modelled. *)
Definition download_body (env : download_env) (url : json) (filename : string)
  : list event * result string :=
  match url with
  | JStr u =>
      let ext := extension u in
      let filename := filename +:+ ext in
      match http_get env u with
      | ImgNoReply => ([], Raise RequestException)
      | ImgReply status chunks complete =>
          match raise_for_status status with
          | Raise e => ([], Raise e)
          | Ok _ =>
              if can_open env filename then
                (FileOpened filename :: (ChunkWritten filename <$> chunks),
                 if complete then Ok filename else Raise RequestException)
              else ([], Raise OSError)
          end
      end
  | _ => ([], Raise TypeError)
  end.

Definition download_image (env : download_env) (url : json) (filename : string)
  : list event * result (json * bool) :=
  match download_body env url filename with
  | (events, Ok filename) => (events, Ok (JStr filename, true))
  | (events, Raise e) =>
      if is_RequestException e then (events ++ [LogWarning url], Ok (url, false))
      else if is_Exception e then (events ++ [LogError url], Ok (url, false))
      else (events, Raise e)
  end.

(** A download task: [(product["id"], product["image"], img_path)]. *)
Abbreviation task := (json * json * string)%type.

(** [os.path.join(IMAGE_FOLDER, f"product_{product['id']}")]: the second
    component never starts with a separator or a drive, and
    [IMAGE_FOLDER] ends in [images]. *)
Definition img_path (pid : json) : string :=
  IMAGE_FOLDER +:+ String (sep os) EmptyString +:+ "product_" +:+ py_str pid.

(** The first loop of [save_products]. *)
Fixpoint prepare_tasks (products : list product) : list task :=
  match products with
  | [] => []
  | product :: rest =>
      if truthy (image product)
      then (id product, image product, img_path (id product)) :: prepare_tasks rest
      else prepare_tasks rest
  end.

(** A submitted future with the pair [futures[future]] and what
    [future.result()] does. *)
Record future : Type := Future {
  future_pid : json;
  future_url : json;
  future_result : result (json * bool)
}.

(** [executor.submit(download_image, url, path)] for each task; the
    [i]-th task runs in the world [world i]. *)
Definition submit_all (world : nat → download_env) (tasks : list task)
  : list future :=
  imap (λ i '(pid, url, path),
          Future pid url (download_image (world i) url path).2) tasks.

(** [download_results[pid] = v] *)
Definition setitem (d : gmap key (json * bool)) (pid : json) (v : json * bool)
  : result (gmap key (json * bool)) :=
  k ← hash_key pid; Ok (<[k := v]> d).

(** The body of [for future in as_completed(futures, timeout=60)]. *)
Definition collect_one (f : future) (download_results : gmap key (json * bool))
  : result (gmap key (json * bool)) :=
  match (rs ← future_result f; setitem download_results (future_pid f) rs) with
  | Ok d => Ok d
  | Raise e =>
      if is_Exception e
      then setitem download_results (future_pid f) (future_url f, false)
      else Raise e
  end.

(** The loop over [as_completed(futures, timeout=60)].  [completed]
    lists, in the order they finish, the indices of the futures that
    finish within the 60 seconds; an index that is not one of the batch
    yields nothing.  The mapping built so far is returned next to the
    exception that leaves the loop, if any. *)
Fixpoint collect_loop (futures : list future) (completed : list nat)
    (download_results : gmap key (json * bool))
  : gmap key (json * bool) * option exn :=
  match completed with
  | [] => (download_results, None)
  | i :: rest =>
      match futures !! i with
      | None => collect_loop futures rest download_results
      | Some f =>
          match collect_one f download_results with
          | Ok d => collect_loop futures rest d
          | Raise e => (download_results, Some e)
          end
      end
  end.

(** Has every one of the [n] futures finished in time? *)
Definition all_done (n : nat) (completed : list nat) : bool :=
  forallb (λ i, bool_decide (i ∈ completed)) (seq 0 n).

(** When some future is not among [completed], the iterator raises
    [TimeoutError] once it has yielded the ones that are. *)
Definition collect (futures : list future) (completed : list nat)
  : gmap key (json * bool) * option exn :=
  match collect_loop futures completed ∅ with
  | (d, None) =>
      (d, if all_done (length futures) completed then None
          else Some TimeoutError)
  | (d, Some e) => (d, Some e)
  end.

(** The download stage of [save_products]: from [image_tasks] to
    [download_results]. *)
Definition download_all (world : nat → download_env) (completed : list nat)
    (tasks : list task) : gmap key (json * bool) * option exn :=
  collect (submit_all world tasks) completed.

(** [download_results.get(product["id"], (None, False))] *)
Definition get_result (download_results : gmap key (json * bool)) (pid : json)
  : result (json * bool) :=
  k ← hash_key pid; Ok (default (JNull, false) (download_results !! k)).

(** The [if product["image"]: ... else: ...] of the report loop: the
    string it writes. *)
Definition image_line (download_results : gmap key (json * bool))
    (product : product) : result string :=
  if truthy (image product) then
    '(img_result, success) ← get_result download_results (id product);
    if success : bool
    then Ok ("Image saved: " +:+ py_str img_result +:+ nl)
    else Ok ("Image download failed" +:+ nl)
  else Ok ("No image available" +:+ nl).

(** The five [f.write] calls for one product. *)
Definition write_product (download_results : gmap key (json * bool))
    (product : product) : result (list string) :=
  let name := "Name: " +:+ py_str (title product) +:+ nl in
  let price := "Price: ‚Çπ" +:+ py_str (price product) +:+ nl in
  let url := "URL: " +:+ url product +:+ nl in
  line ← image_line download_results product;
  Ok [name; price; url; line; str_repeat "-" 40 +:+ nl].

(** The report loop: the texts it passes to [f.write], in order. *)
Fixpoint write_report (download_results : gmap key (json * bool))
    (products : list product) : result (list string) :=
  match products with
  | [] => Ok []
  | product :: rest =>
      lines ← write_product download_results product;
      more ← write_report download_results rest;
      Ok (lines ++ more)
  end.

Definition save_products (world : nat → download_env) (completed : list nat)
    (products : list product) : result (list string) :=
  match download_all world completed (prepare_tasks products) with
  | (_, Some e) => Raise e
  | (download_results, None) => write_report download_results products
  end.

(** The [__main__] block: the products are fetched, their images
    downloaded, and the report is written to the output file [out].  The
    download stage comes before the file is opened; the lookups of the
    report loop cannot raise once the download stage has returned. *)
Definition main (get : string → http_reply) (fuel : nat)
    (world : nat → download_env) (completed : list nat) (out : output_env)
  : run (list string) :=
  match (fetch_products get fuel).2 with
  | Returns products =>
      match save_products world completed products with
      | Ok written =>
          match write_file out written with
          | Ok _ => Returns written
          | Raise e => Escapes e
          end
      | Raise e => Escapes e
      end
  | Escapes e => Escapes e
  | OutOfFuel => OutOfFuel
  end.
End with_os.
End SutaScraper.

(** * Vocabulary of the properties *)

(** ** Pages *)

(** The replies on which the [try] block of [fetch_products] raises an
    exception that its [except] clause catches: no reply (network error,
    timeout, retries exhausted), an error status (the 4xx and 5xx codes, on
    which [raise_for_status] raises), or a body on which [response.json()]
    raises [ValueError]. *)
Definition fetch_error (reply : http_reply) : Prop :=
  match reply with
  | NoReply => True
  | Reply status body => 400 ≤ status < 600 ∨ body = None
  | ReplyTooDeep status => 400 ≤ status < 600
  end.

(** The reply is a page whose ["products"] list is [entries]. *)
Definition serves (reply : http_reply) (entries : list json) : Prop :=
  ∃ status data,
    reply = Reply status (Some data) ∧ ¬ (400 ≤ status < 600) ∧
    getitem_str data "products" = Ok (JList entries).

(** From page [first] on, the server has the pages [pages], none empty,
    and [records] are their entries, normalised. *)
Definition serves_pages {A : Type} (base_url : string)
    (normalize : json → result A) (get : string → http_reply) (first : nat)
    (pages : list (list json)) (records : list (list A)) : Prop :=
  Forall2 (λ entries rs,
             entries ≠ [] ∧ Forall2 (λ p r, normalize p = Ok r) entries rs)
          pages records
  ∧ ∀ i entries, pages !! i = Some entries →
      serves (get (page_url base_url (first + i))) entries.

(** ** The report, in the words of the specification *)

(** The three cases of the image field. *)
Inductive image_case : Type :=
  | NoImageAvailable
  | ImageSavedAt (path : json)
  | ImageDownloadFailed.

(** The outcome recorded for an identifier, if any. *)
Definition outcome_of (download_results : gmap key (json * bool)) (pid : json)
  : option (json * bool) :=
  match hash_key pid with
  | Ok k => download_results !! k
  | Raise _ => None
  end.

(** No image URL: first case; an image URL and a successful outcome:
    second case; otherwise: third case. *)
Definition image_case_of (download_results : gmap key (json * bool))
    (p : SutaScraper.product) : image_case :=
  if negb (truthy (SutaScraper.image p)) then NoImageAvailable
  else
    match outcome_of download_results (SutaScraper.id p) with
    | Some (path, true) => ImageSavedAt path
    | _ => ImageDownloadFailed
    end.

Definition render_image_case (py_str : json → string) (c : image_case) : string :=
  match c with
  | NoImageAvailable => "No image available" +:+ nl
  | ImageSavedAt path => "Image saved: " +:+ py_str path +:+ nl
  | ImageDownloadFailed => "Image download failed" +:+ nl
  end.

(** The output record of one product: name, price, URL, image field and
    separator. *)
Definition output_record (py_str : json → string) (p : SutaScraper.product)
    (c : image_case) : list string :=
  ["Name: " +:+ py_str (SutaScraper.title p) +:+ nl;
   "Price: ‚Çπ" +:+ py_str (SutaScraper.price p) +:+ nl;
   "URL: " +:+ SutaScraper.url p +:+ nl;
   render_image_case py_str c;
   str_repeat "-" 40 +:+ nl].

(** The identifier of a product with an image can key a dictionary. *)
Definition hashable_id (p : SutaScraper.product) : Prop :=
  truthy (SutaScraper.image p) = true →
  ∃ k, hash_key (SutaScraper.id p) = Ok k.

(** When each case of the image field is chosen. *)
Definition case_chosen (download_results : gmap key (json * bool))
    (p : SutaScraper.product) (c : image_case) : Prop :=
  match c with
  | NoImageAvailable => truthy (SutaScraper.image p) = false
  | ImageSavedAt path =>
      truthy (SutaScraper.image p) = true
      ∧ outcome_of download_results (SutaScraper.id p) = Some (path, true)
  | ImageDownloadFailed =>
      truthy (SutaScraper.image p) = true
      ∧ ∀ path, outcome_of download_results (SutaScraper.id p) ≠ Some (path, true)
  end.

(** ** The download stage *)

(** What the collection loop records for a future: its result, or the
    pair of its URL and [False] when [future.result()] raises. *)
Definition future_outcome (f : SutaScraper.future) : json * bool :=
  match SutaScraper.future_result f with
  | Ok v => v
  | Raise _ => (SutaScraper.future_url f, false)
  end.

(** One round of the collection loop, when nothing escapes it. *)
Definition store (futures : list SutaScraper.future)
    (d : gmap key (json * bool)) (i : nat) : gmap key (json * bool) :=
  match futures !! i with
  | Some f =>
      match hash_key (SutaScraper.future_pid f) with
      | Ok k => <[k := future_outcome f]> d
      | Raise _ => d
      end
  | None => d
  end.

Definition hashable_future (f : SutaScraper.future) : Prop :=
  ∃ k, hash_key (SutaScraper.future_pid f) = Ok k.

(** ** The file extension, in the words of the specification *)

(** The extension of the path of the URL, that is, of what comes before
    the query string; [.jpg] when the path has none. *)
Definition extension_of_path (os : os_path) (url : string) : string :=
  str_or (splitext os (split_head "?"%char url)).2 ".jpg".

(** Does the character occur in the string? *)
Fixpoint occurs (c : ascii) (s : string) : bool :=
  match s with
  | EmptyString => false
  | String a s' => Ascii.eqb a c || occurs c s'
  end.

(** None of the characters that [splitext] looks for occurs in [t]. *)
Definition no_dot_or_sep (os : os_path) (t : string) : Prop :=
  occurs "." t = false ∧ occurs (sep os) t = false ∧
  match altsep os with Some a => occurs a t = false | None => True end.

(** The separators of [os.path] do not occur in [t]. *)
Definition no_sep (os : os_path) (t : string) : Prop :=
  occurs (sep os) t = false
  ∧ match altsep os with Some a => occurs a t = false | None => True end.

(** ** The report file *)

(** No text has a lone surrogate: the utf-8 codec can encode each of
    them. *)
Definition encodable (lines : list string) : Prop :=
  Forall (λ line, has_lone_surrogate line = false) lines.

(** * Concrete inputs *)

(** An output file that opens and stores everything, and the text of a
    lone surrogate, U+D800. *)
Definition writable : output_env := OutputEnv true (λ _, true).

Definition lone_surrogate : string :=
  String "237"%char (String "160"%char (String "128"%char EmptyString)).


(** Python's [str] on the scalars that occur in the examples. *)
Definition str_of_scalar (v : json) : string :=
  match v with
  | JStr s => s
  | JInt n => pretty n
  | JNull => "None"
  | JBool true => "True"
  | JBool false => "False"
  | _ => ""
  end.

Definition obj (fields : list (string * json)) : json := JObj (list_to_map fields).

(** A catalogue entry with the given id, image URLs and variant prices. *)
Definition entry (pid : Z) (images prices : list string) : json :=
  obj [("id", JInt pid); ("title", JStr "Lehenga"); ("handle", JStr "lehenga");
       ("images", JList ((λ s, obj [("src", JStr s)]) <$> images));
       ("variants", JList ((λ s, obj [("price", JStr s)]) <$> prices))].

Definition page_of (entries : list json) : http_reply :=
  Reply 200 (Some (obj [("products", JList entries)])).

(** A page that is refused with 304 but carries a catalogue all the
    same. *)
Definition not_modified (entries : list json) : http_reply :=
  Reply 304 (Some (obj [("products", JList entries)])).

(** A server with the given pages under [base_url], numbered from [first],
    and empty pages after them. *)
Fixpoint server_from (base_url : string) (first : nat) (pages : list (list json))
    (url : string) : http_reply :=
  match pages with
  | [] => page_of []
  | entries :: rest =>
      if String.eqb url (page_url base_url first) then page_of entries
      else server_from base_url (S first) rest url
  end.

Definition server (base_url : string) (pages : list (list json))
  : string → http_reply :=
  server_from base_url 1 pages.

(** The same, but page [failing] is answered by [reply]. *)
Definition server_failing (base_url : string) (pages : list (list json))
    (failing : nat) (reply : http_reply) (url : string) : http_reply :=
  if String.eqb url (page_url base_url failing) then reply
  else server base_url pages url.

Definition two_entries : list json :=
  [entry 1 ["https://cdn.example.com/a/photo.jpg?v=12"] ["1200.00"];
   entry 2 [] ["800.00"]].

(** What [two_entries] normalise to, in suta_scraper.py and in scraper.py. *)
Definition two_records : list SutaScraper.product :=
  [SutaScraper.Product (JInt 1) (JStr "Lehenga") (JStr "1200.00")
     (JStr "https://cdn.example.com/a/photo.jpg?v=12")
     "https://suta.in/products/lehenga";
   SutaScraper.Product (JInt 2) (JStr "Lehenga") (JStr "800.00") JNull
     "https://suta.in/products/lehenga"].

Definition two_records_gift_box : list Scraper.product :=
  [Scraper.Product (JStr "Lehenga") (JStr "1200.00")
     (JStr "https://cdn.example.com/a/photo.jpg?v=12")
     "https://suta.in/products/lehenga";
   Scraper.Product (JStr "Lehenga") (JStr "800.00") JNull
     "https://suta.in/products/lehenga"].

(** An image server that answers 404 to every request, and one that
    serves every image. *)
Definition not_found : download_env :=
  DownloadEnv (λ _, ImgReply 404 [] true) (λ _, true).

Definition all_fine : download_env :=
  DownloadEnv (λ _, ImgReply 200 ["chunk"] true) (λ _, true).

(** Two download tasks with distinct identifiers, and a world in which
    the first download works and the second gets a 404. *)
Definition two_tasks : list (json * json * string) :=
  [(JStr "a", JStr "https://cdn.example.com/a/photo.jpg", "images/product_a");
   (JStr "b", JStr "https://cdn.example.com/b/photo.png", "images/product_b")].

Definition first_only (i : nat) : download_env :=
  match i with
  | O => all_fine
  | _ => not_found
  end.

(** A server whose every page is the same non-empty page, and a body
    that is JSON but not an object. *)
Definition endless (url : string) : http_reply := page_of two_entries.

Definition list_body : http_reply := Reply 200 (Some (JList [])).

(** A page without a ["products"] key. *)
Definition no_products_key : http_reply :=
  Reply 200 (Some (obj [("errors", JStr "Not Found")])).

(** An image server whose stream breaks after two chunks. *)
Definition broken_stream : download_env :=
  DownloadEnv (λ _, ImgReply 200 ["chunk1"; "chunk2"] false) (λ _, true).

(** The file that an effect of a download task touches, if any. *)
Definition event_file (ev : event) : option string :=
  match ev with
  | FileOpened f | ChunkWritten f _ => Some f
  | LogWarning _ | LogError _ => None
  end.

(** Two download tasks for two products with the same identifier. *)
Definition same_id_tasks : list (json * json * string) :=
  [(JStr "a", JStr "https://cdn.example.com/a/front.jpg", "images/product_a");
   (JStr "a", JStr "https://cdn.example.com/a/back.jpg", "images/product_a")].

(** * Properties *)

(** ** The error monad *)

Lemma bind_Ok {A B : Type} (a : A) (k : A → result B) : (Ok a ≫= k) = k a.
Proof. reflexivity. Qed.

Lemma bind_Ok_inv {A B : Type} (m : result A) (k : A → result B) (b : B) :
  (m ≫= k) = Ok b → ∃ a, m = Ok a ∧ k a = Ok b.
Proof. destruct m as [a|e]; [eauto | discriminate]. Qed.

Lemma mapM_Ok_Forall2 {A B : Type} (f : A → result B) (l : list A) (k : list B) :
  mapM f l = Ok k ↔ Forall2 (λ x y, f x = Ok y) l k.
Proof.
  revert k. induction l as [|x l IH]; intros k; simpl.
  - split.
    + intros [= <-]. constructor.
    + intros H. by inversion H.
  - split.
    + intros H. apply bind_Ok_inv in H as (y & Hy & H).
      apply bind_Ok_inv in H as (k' & Hk' & [= <-]).
      constructor; [done | by apply IH].
    + intros H. inversion H as [|? y ? k' Hy Hk']; subst.
      apply IH in Hk'. by rewrite Hy, Hk'.
Qed.

(** ** One page request *)

Lemma get_json_fetch_error (get : string → http_reply) (url : string) :
  fetch_error (get url) →
  ∃ e, get_json get url = Raise e ∧ is_RequestException e || is_ValueError e = true.
Proof.
  unfold fetch_error, get_json, raise_for_status.
  destruct (get url) as [|status body|status]; [by eexists| |].
  - intros [Hs | ->].
    + rewrite bool_decide_eq_true_2 by done. by eexists.
    + case_bool_decide; by eexists.
  - intros Hs. rewrite bool_decide_eq_true_2 by done. by eexists.
Qed.

Lemma get_json_serves (get : string → http_reply) (url : string) (entries : list json) :
  serves (get url) entries →
  ∃ data, get_json get url = Ok data ∧
          get_default data "products" (JList []) = Ok (JList entries).
Proof.
  intros (status & data & Hreply & Hstatus & Hproducts).
  exists data. unfold get_json, raise_for_status. rewrite Hreply.
  rewrite bool_decide_eq_false_2 by done. split; [done|].
  destruct data; try discriminate. simpl in *.
  by destruct (_ !! _); simplify_eq.
Qed.

(** ** The pagination loop *)

Section fetch_facts.
Context {A : Type}.
Variable base_url : string.
Variable normalize : json → result A.
Variable get : string → http_reply.

Lemma serves_pages_cons first entries pages rs records :
  serves_pages base_url normalize get first (entries :: pages) (rs :: records) →
  serves (get (page_url base_url first)) entries ∧ entries ≠ [] ∧
  mapM normalize entries = Ok rs ∧
  serves_pages base_url normalize get (S first) pages records.
Proof.
  intros [HF Hget]. inversion HF as [|? ? ? ? [Hne Hrs] HF']; subst.
  split; [|split; [done|split]].
  - specialize (Hget 0%nat entries eq_refl). by rewrite Nat.add_0_r in Hget.
  - by apply mapM_Ok_Forall2.
  - split; [done|]. intros i es Hi.
    specialize (Hget (S i) es Hi). by rewrite Nat.add_succ_r in Hget.
Qed.

(** The loop goes through a run of good pages, accumulating their
    records and requesting each of them once. *)
Lemma fetch_loop_pages pages : ∀ records first fuel all_products requested,
  serves_pages base_url normalize get first pages records →
  fetch_loop base_url normalize get (length pages + fuel) first
    all_products requested
  = fetch_loop base_url normalize get fuel (first + length pages)
      (all_products ++ concat records)
      (requested ++ (page_url base_url <$> seq first (length pages))).
Proof.
  induction pages as [|entries pages IH]; intros records first fuel acc req H.
  - destruct H as [HF _]. inversion HF; subst. simpl.
    by rewrite Nat.add_0_r, !app_nil_r.
  - destruct records as [|rs records]; [destruct H as [HF _]; inversion HF|].
    apply serves_pages_cons in H as (Hserves & Hne & Hrs & H).
    apply get_json_serves in Hserves as (data & Hdata & Hproducts).
    simpl. rewrite Hdata, Hproducts.
    destruct entries as [|p entries]; [done|].
    cbn [truthy negb iterate]. rewrite bind_Ok, Hrs.
    rewrite (IH _ _ _ _ _ H).
    by rewrite Nat.add_succ_r, <- !app_assoc.
Qed.

(** An empty page ends the loop. *)
Lemma fetch_loop_empty_page fuel page all_products requested :
  serves (get (page_url base_url page)) [] →
  fetch_loop base_url normalize get (S fuel) page all_products requested
  = (requested ++ [page_url base_url page], Returns all_products).
Proof.
  intros (data & Hdata & Hproducts)%get_json_serves.
  simpl. by rewrite Hdata, Hproducts.
Qed.

(** A failed request ends the loop. *)
Lemma fetch_loop_fetch_error fuel page all_products requested :
  fetch_error (get (page_url base_url page)) →
  fetch_loop base_url normalize get (S fuel) page all_products requested
  = (requested ++ [page_url base_url page], Returns all_products).
Proof.
  intros (e & He & Hcaught)%get_json_fetch_error.
  simpl. by rewrite He, Hcaught.
Qed.

Lemma fetch_products_with_empty_page pages records fuel :
  serves_pages base_url normalize get 1 pages records →
  serves (get (page_url base_url (S (length pages)))) [] →
  (length pages < fuel)%nat →
  fetch_products_with base_url normalize get fuel
  = (page_url base_url <$> seq 1 (S (length pages)), Returns (concat records)).
Proof.
  intros Hpages Hlast Hfuel. unfold fetch_products_with.
  replace fuel with (length pages + S (fuel - S (length pages)))%nat by lia.
  rewrite (fetch_loop_pages _ _ _ _ _ _ Hpages).
  rewrite fetch_loop_empty_page by done.
  by rewrite seq_S, fmap_app.
Qed.

Lemma fetch_products_with_fetch_error pages records fuel :
  serves_pages base_url normalize get 1 pages records →
  fetch_error (get (page_url base_url (S (length pages)))) →
  (length pages < fuel)%nat →
  fetch_products_with base_url normalize get fuel
  = (page_url base_url <$> seq 1 (S (length pages)), Returns (concat records)).
Proof.
  intros Hpages Hlast Hfuel. unfold fetch_products_with.
  replace fuel with (length pages + S (fuel - S (length pages)))%nat by lia.
  rewrite (fetch_loop_pages _ _ _ _ _ _ Hpages).
  rewrite fetch_loop_fetch_error by done.
  by rewrite seq_S, fmap_app.
Qed.
End fetch_facts.

(** ** Pagination: claims *)

(** C3.  When the server has the non-empty pages 1..k and page k+1 is
    empty, [fetch_products] (of both scripts) requests the pages 1..k+1, in
    this order, and returns the normalised records of pages 1..k, page
    after page and entry after entry. *)
Theorem fetch_products_until_empty_page :
  (∀ py_str get pages records fuel,
     serves_pages Scraper.base_url (Scraper.normalize py_str) get 1 pages records →
     serves (get (page_url Scraper.base_url (S (length pages)))) [] →
     (length pages < fuel)%nat →
     Scraper.fetch_products py_str get fuel
     = (page_url Scraper.base_url <$> seq 1 (S (length pages)),
        Returns (concat records)))
  ∧
  (∀ py_str get pages records fuel,
     serves_pages SutaScraper.base_url (SutaScraper.normalize py_str) get 1
       pages records →
     serves (get (page_url SutaScraper.base_url (S (length pages)))) [] →
     (length pages < fuel)%nat →
     SutaScraper.fetch_products py_str get fuel
     = (page_url SutaScraper.base_url <$> seq 1 (S (length pages)),
        Returns (concat records))).
Proof.
  split; intros py_str get pages records fuel Hpages Hlast Hfuel.
  - by apply fetch_products_with_empty_page.
  - by apply fetch_products_with_empty_page.
Qed.

Lemma serves_pages_of {A : Type} (normalize : json → result A)
    (base_url : string) (get : string → http_reply)
    (pages : list (list json)) (records : list (list A)) :
  Forall2 (λ entries rs,
             entries ≠ [] ∧ Forall2 (λ p r, normalize p = Ok r) entries rs)
          pages records →
  (∀ i entries, pages !! i = Some entries →
     get (page_url base_url (1 + i)) = page_of entries) →
  serves_pages base_url normalize get 1 pages records.
Proof.
  intros HF Hget. split; [done|]. intros i entries Hi.
  rewrite (Hget i entries Hi).
  exists 200, (obj [("products", JList entries)]).
  split; [done|]. split; [lia|]. reflexivity.
Qed.

Lemma fetch_products_until_empty_page_witness :
  Scraper.fetch_products str_of_scalar
    (server Scraper.base_url [two_entries]) 2
  = (page_url Scraper.base_url <$> [1; 2]%nat, Returns two_records_gift_box)
  ∧
  SutaScraper.fetch_products str_of_scalar
    (server SutaScraper.base_url [two_entries]) 2
  = (page_url SutaScraper.base_url <$> [1; 2]%nat, Returns two_records).
Proof.
  split.
  - apply (proj1 fetch_products_until_empty_page str_of_scalar
             (server Scraper.base_url [two_entries]) [two_entries]
             [two_records_gift_box]).
    + apply serves_pages_of.
      * repeat constructor; done.
      * intros [|i] entries [= <-]. by vm_compute.
    + exists 200, (obj [("products", JList [])]).
      split; [by vm_compute|]. split; [lia | reflexivity].
    + simpl. lia.
  - apply (proj2 fetch_products_until_empty_page str_of_scalar
             (server SutaScraper.base_url [two_entries]) [two_entries]
             [two_records]).
    + apply serves_pages_of.
      * repeat constructor; done.
      * intros [|i] entries [= <-]. by vm_compute.
    + exists 200, (obj [("products", JList [])]).
      split; [by vm_compute|]. split; [lia | reflexivity].
    + simpl. lia.
Defined.

(** C4, for the errors that the [except] clause catches.  When the pages
    1..j-1 are served and the request for page j fails with no reply
    (network error, timeout, retries exhausted), with a 4xx or 5xx status,
    or with a body on which [response.json()] raises [ValueError],
    [fetch_products] (of both scripts) stops at page j and returns the
    records of pages 1..j-1; no exception leaves it. *)
Theorem fetch_products_fetch_error :
  (∀ py_str get pages records fuel,
     serves_pages Scraper.base_url (Scraper.normalize py_str) get 1 pages records →
     fetch_error (get (page_url Scraper.base_url (S (length pages)))) →
     (length pages < fuel)%nat →
     Scraper.fetch_products py_str get fuel
     = (page_url Scraper.base_url <$> seq 1 (S (length pages)),
        Returns (concat records)))
  ∧
  (∀ py_str get pages records fuel,
     serves_pages SutaScraper.base_url (SutaScraper.normalize py_str) get 1
       pages records →
     fetch_error (get (page_url SutaScraper.base_url (S (length pages)))) →
     (length pages < fuel)%nat →
     SutaScraper.fetch_products py_str get fuel
     = (page_url SutaScraper.base_url <$> seq 1 (S (length pages)),
        Returns (concat records))).
Proof.
  split; intros py_str get pages records fuel Hpages Hlast Hfuel.
  - by apply fetch_products_with_fetch_error.
  - by apply fetch_products_with_fetch_error.
Qed.

Lemma fetch_products_fetch_error_witness :
  Scraper.fetch_products str_of_scalar
    (server_failing Scraper.base_url [two_entries] 2 (Reply 503 None)) 2
  = (page_url Scraper.base_url <$> [1; 2]%nat, Returns two_records_gift_box)
  ∧
  SutaScraper.fetch_products str_of_scalar
    (server_failing SutaScraper.base_url [two_entries] 2 NoReply) 2
  = (page_url SutaScraper.base_url <$> [1; 2]%nat, Returns two_records).
Proof.
  split.
  - apply (proj1 fetch_products_fetch_error str_of_scalar
             (server_failing Scraper.base_url [two_entries] 2 (Reply 503 None))
             [two_entries] [two_records_gift_box]).
    + apply serves_pages_of.
      * repeat constructor; done.
      * intros [|i] entries [= <-]. by vm_compute.
    + unfold server_failing. cbn [length]. rewrite String.eqb_refl.
      left. lia.
    + simpl. lia.
  - apply (proj2 fetch_products_fetch_error str_of_scalar
             (server_failing SutaScraper.base_url [two_entries] 2 NoReply)
             [two_entries] [two_records]).
    + apply serves_pages_of.
      * repeat constructor; done.
      * intros [|i] entries [= <-]. by vm_compute.
    + unfold server_failing. cbn [length]. by rewrite String.eqb_refl.
    + simpl. lia.
Defined.

(** C4 as stated fails on two kinds of failed page.  A status outside
    2xx that is no 4xx or 5xx passes [raise_for_status]: a 304 reply with a
    catalogue in its body is used like any page, and the loop goes on.
    And a body nested too deeply makes [response.json()] raise
    [RecursionError], which the [except] clause does not catch. *)
Lemma fetch_products_fetch_error_counterexample :
  SutaScraper.fetch_products str_of_scalar
    (server_failing SutaScraper.base_url [two_entries] 2 (not_modified two_entries))
    3
  = (page_url SutaScraper.base_url <$> [1; 2; 3]%nat,
     Returns (two_records ++ two_records))
  ∧ Scraper.fetch_products str_of_scalar
      (server_failing Scraper.base_url [two_entries] 2 (ReplyTooDeep 200)) 2
    = (page_url Scraper.base_url <$> [1; 2]%nat, Escapes RecursionError).
Proof. split; by vm_compute. Qed.

(** ** Normalisation: claims *)

(** C7.  For an entry whose ["images"] list is empty, the image expression
    evaluates to [None] without raising, and normalisation (in both
    scripts) yields the record of the entry's other fields with a null
    image URL. *)
Theorem normalize_empty_images (py_str : json → string) (p : json) :
  getitem_str p "images" = Ok (JList []) →
  first_image_src p = Ok JNull
  ∧ (∀ title price handle,
       getitem_str p "title" = Ok title →
       first_variant_price p = Ok price →
       getitem_str p "handle" = Ok handle →
       Scraper.normalize py_str p
       = Ok (Scraper.Product title price JNull
               ("https://suta.in/products/" +:+ py_str handle)))
  ∧ (∀ pid title price handle,
       getitem_str p "id" = Ok pid →
       getitem_str p "title" = Ok title →
       first_variant_price p = Ok price →
       getitem_str p "handle" = Ok handle →
       SutaScraper.normalize py_str p
       = Ok (SutaScraper.Product pid title price JNull
               ("https://suta.in/products/" +:+ py_str handle))).
Proof.
  intros Himages.
  assert (first_image_src p = Ok JNull) as Hsrc.
  { unfold first_image_src. by rewrite Himages. }
  split; [done|]. split.
  - intros title price handle Ht Hp Hh.
    unfold Scraper.normalize. by rewrite Hsrc, Ht, Hp, Hh.
  - intros pid title price handle Hi Ht Hp Hh.
    unfold SutaScraper.normalize. by rewrite Hsrc, Hi, Ht, Hp, Hh.
Qed.

Lemma normalize_empty_images_witness :
  first_image_src (entry 2 [] ["800.00"]) = Ok JNull
  ∧ Scraper.image_url <$> Scraper.normalize str_of_scalar (entry 2 [] ["800.00"])
    = Ok JNull
  ∧ SutaScraper.image <$> SutaScraper.normalize str_of_scalar (entry 2 [] ["800.00"])
    = Ok JNull.
Proof.
  destruct (normalize_empty_images str_of_scalar (entry 2 [] ["800.00"]) eq_refl)
    as (Hsrc & Hgift & Hsuta).
  split; [exact Hsrc|]. split.
  - by rewrite (Hgift (JStr "Lehenga") (JStr "800.00") (JStr "lehenga")).
  - by rewrite (Hsuta (JInt 2) (JStr "Lehenga") (JStr "800.00") (JStr "lehenga")).
Defined.

(** ** One download task: claims *)

(** The ways the [try] block of [download_image] fails on a string URL. *)
Lemma download_body_raises os env (u : string) filename :
  let target := filename +:+ SutaScraper.extension os u in
  (match http_get env u with
   | ImgNoReply => True
   | ImgReply status chunks complete =>
       400 ≤ status < 600 ∨ can_open env target = false ∨ complete = false
   end) →
  ∃ e, (SutaScraper.download_body os env (JStr u) filename).2 = Raise e.
Proof.
  unfold SutaScraper.download_body, raise_for_status. simpl.
  destruct (http_get env u) as [|status chunks complete]; [by eexists|].
  intros H. case_bool_decide; [by eexists|].
  destruct (can_open env _) eqn:Hopen; [|by eexists].
  destruct complete; [|by eexists].
  by destruct H as [?|[?|?]].
Qed.

Lemma download_image_returns os env url filename :
  ∃ outcome, (SutaScraper.download_image os env url filename).2 = Ok outcome.
Proof.
  unfold SutaScraper.download_image.
  destruct (SutaScraper.download_body os env url filename) as [events [f|e]];
    [by eexists|].
  destruct (is_RequestException e); by eexists.
Qed.

(** C5.  [download_image] never raises; and when its [try] block fails,
    with a [RequestException] or with anything else, it logs the failure
    (a warning or an error) and returns the pair of the URL it was given
    and [False]. *)
Theorem download_image_failure os env url filename :
  (∃ outcome, (SutaScraper.download_image os env url filename).2 = Ok outcome)
  ∧ ∀ e, (SutaScraper.download_body os env url filename).2 = Raise e →
      SutaScraper.download_image os env url filename
      = ((SutaScraper.download_body os env url filename).1
           ++ [if is_RequestException e then LogWarning url else LogError url],
         Ok (url, false)).
Proof.
  split; [apply download_image_returns|].
  unfold SutaScraper.download_image.
  destruct (SutaScraper.download_body os env url filename) as [events [f|e]];
    [discriminate|].
  intros e' [= <-]. by destruct (is_RequestException e).
Qed.

Lemma download_image_failure_witness :
  SutaScraper.download_image posixpath not_found
    (JStr "https://cdn.example.com/a/photo.jpg") "images/product_1"
  = ([LogWarning (JStr "https://cdn.example.com/a/photo.jpg")],
     Ok (JStr "https://cdn.example.com/a/photo.jpg", false)).
Proof.
  exact (proj2 (download_image_failure posixpath not_found
                  (JStr "https://cdn.example.com/a/photo.jpg") "images/product_1")
           RequestException eq_refl).
Defined.

(** ** The report: claims *)

Lemma image_line_case py_str download_results (p : SutaScraper.product) :
  hashable_id p →
  SutaScraper.image_line py_str download_results p
  = Ok (render_image_case py_str (image_case_of download_results p)).
Proof.
  unfold hashable_id, SutaScraper.image_line, image_case_of, outcome_of,
    SutaScraper.get_result.
  destruct (truthy _); [|done].
  intros [k Hk]; [done|]. rewrite Hk. simpl.
  by destruct (download_results !! k) as [[path [|]]|].
Qed.

Lemma write_product_record py_str download_results (p : SutaScraper.product) :
  hashable_id p →
  SutaScraper.write_product py_str download_results p
  = Ok (output_record py_str p (image_case_of download_results p)).
Proof.
  intros Hp. unfold SutaScraper.write_product.
  by rewrite image_line_case.
Qed.

(** The report loop writes the records of the products one after the
    other. *)
Lemma write_report_concat py_str download_results
    (products : list SutaScraper.product) :
  Forall hashable_id products →
  SutaScraper.write_report py_str download_results products
  = Ok (concat ((λ p, output_record py_str p (image_case_of download_results p))
                  <$> products)).
Proof.
  induction 1 as [|p products Hp _ IH]; [done|].
  simpl. by rewrite write_product_record, IH.
Qed.

Lemma image_case_of_chosen download_results (p : SutaScraper.product) :
  case_chosen download_results p (image_case_of download_results p).
Proof.
  unfold image_case_of, case_chosen.
  destruct (truthy (SutaScraper.image p)); simpl; [|done].
  destruct (outcome_of download_results (SutaScraper.id p)) as [[path [|]]|];
    simpl.
  - by split.
  - split; [done|]. intros path'. discriminate.
  - split; [done|]. intros path'. discriminate.
Qed.

(** C6.  The report loop writes one output record per product, in the
    order of the products.  The image field of a record is: "no image
    available" when the product has no image URL; "image saved at <path>"
    when it has one and the outcome looked up under its identifier is
    successful; "image download failed" otherwise. *)
Theorem write_report_records py_str download_results
    (products : list SutaScraper.product) :
  Forall hashable_id products →
  ∃ records : list (list string),
    SutaScraper.write_report py_str download_results products
    = Ok (concat records)
    ∧ Forall2 (λ p record,
                 ∃ c, record = output_record py_str p c
                      ∧ case_chosen download_results p c)
              products records.
Proof.
  intros Hids.
  exists ((λ p, output_record py_str p (image_case_of download_results p))
            <$> products).
  split; [by apply write_report_concat|].
  apply Forall2_fmap_r, Forall_Forall2_diag, Forall_forall.
  intros p _. exists (image_case_of download_results p).
  split; [done | apply image_case_of_chosen].
Qed.

(** C10.  For a product with an image URL whose identifier is not a key of
    the outcome mapping, the lookup defaults to a failed outcome: the
    report says that the download failed, and no exception is raised. *)
Theorem image_line_missing_outcome py_str download_results
    (p : SutaScraper.product) (k : key) :
  truthy (SutaScraper.image p) = true →
  hash_key (SutaScraper.id p) = Ok k →
  download_results !! k = None →
  SutaScraper.get_result download_results (SutaScraper.id p) = Ok (JNull, false)
  ∧ SutaScraper.image_line py_str download_results p
    = Ok ("Image download failed" +:+ nl)
  ∧ SutaScraper.write_product py_str download_results p
    = Ok (output_record py_str p ImageDownloadFailed).
Proof.
  intros Himage Hk Hnone.
  assert (SutaScraper.get_result download_results (SutaScraper.id p)
          = Ok (JNull, false)) as Hget.
  { unfold SutaScraper.get_result. by rewrite Hk; simpl; rewrite Hnone. }
  assert (SutaScraper.image_line py_str download_results p
          = Ok ("Image download failed" +:+ nl)) as Hline.
  { unfold SutaScraper.image_line. by rewrite Himage, Hget. }
  split; [done|]. split; [done|].
  unfold SutaScraper.write_product. by rewrite Hline.
Qed.

Lemma two_records_hashable : Forall hashable_id two_records.
Proof. repeat constructor; intros _; by eexists. Qed.

Lemma write_report_records_witness :
  ∃ records : list (list string),
    SutaScraper.write_report str_of_scalar
      {[ KNum (Q2Qc (inject_Z 1)) := (JStr "images/product_1.jpg", true) ]}
      two_records
    = Ok (concat records)
    ∧ length records = 2%nat.
Proof.
  destruct (write_report_records str_of_scalar
              {[ KNum (Q2Qc (inject_Z 1)) := (JStr "images/product_1.jpg", true) ]}
              two_records two_records_hashable)
    as (records & Hwritten & Hrecords).
  exists records. split; [exact Hwritten|].
  symmetry. exact (Forall2_length _ _ _ Hrecords).
Defined.

Lemma image_line_missing_outcome_witness :
  SutaScraper.image_line str_of_scalar ∅
    (SutaScraper.Product (JInt 1) (JStr "Lehenga") (JStr "1200.00")
       (JStr "https://cdn.example.com/a/photo.jpg?v=12")
       "https://suta.in/products/lehenga")
  = Ok ("Image download failed" +:+ nl).
Proof.
  exact (proj1 (proj2 (image_line_missing_outcome str_of_scalar ∅
           (SutaScraper.Product (JInt 1) (JStr "Lehenga") (JStr "1200.00")
              (JStr "https://cdn.example.com/a/photo.jpg?v=12")
              "https://suta.in/products/lehenga")
           (KNum (Q2Qc (inject_Z 1))) eq_refl eq_refl eq_refl))).
Defined.

(** ** The download stage *)

Lemma collect_one_stores f d k :
  hash_key (SutaScraper.future_pid f) = Ok k →
  SutaScraper.collect_one f d = Ok (<[k := future_outcome f]> d).
Proof.
  intros Hk. unfold SutaScraper.collect_one, SutaScraper.setitem, future_outcome.
  destruct (SutaScraper.future_result f) as [v|e]; simpl; by rewrite Hk.
Qed.

Lemma collect_loop_stores futures completed : ∀ d,
  Forall hashable_future futures →
  SutaScraper.collect_loop futures completed d
  = (foldl (store futures) d completed, None).
Proof.
  induction completed as [|i completed IH]; intros d Hfutures; [done|].
  simpl. unfold store at 2.
  destruct (futures !! i) as [f|] eqn:Hi; [|by apply IH].
  destruct (Forall_lookup_1 _ _ _ _ Hfutures Hi) as [k Hk].
  rewrite (collect_one_stores _ _ _ Hk), Hk. by apply IH.
Qed.

Section stored.
Variable futures : list SutaScraper.future.
Variable keys : list key.
Hypothesis Hkeys :
  Forall2 (λ f k, hash_key (SutaScraper.future_pid f) = Ok k) futures keys.

Lemma store_snoc d l x :
  foldl (store futures) d (l ++ [x]) = store futures (foldl (store futures) d l) x.
Proof. by rewrite foldl_app. Qed.

(** Every key of the mapping is the key of a future. *)
Lemma foldl_store_keys d l k :
  is_Some (foldl (store futures) d l !! k) → is_Some (d !! k) ∨ k ∈ keys.
Proof.
  induction l as [|x l IH] using rev_ind; [by left|].
  rewrite store_snoc. unfold store at 1.
  destruct (futures !! x) as [f|] eqn:Hx; [|done].
  destruct (Forall2_lookup_l _ _ _ _ _ Hkeys Hx) as (k' & Hk' & Hhash).
  rewrite Hhash. destruct (decide (k' = k)) as [->|Hne].
  - intros _. right. by eapply list_elem_of_lookup_2.
  - by rewrite lookup_insert_ne.
Qed.

(** With distinct keys, a future that has finished keeps its outcome. *)
Lemma foldl_store_lookup d l i f k :
  NoDup keys →
  i ∈ l → futures !! i = Some f → keys !! i = Some k →
  foldl (store futures) d l !! k = Some (future_outcome f).
Proof.
  intros Hnodup Hin Hi Hk. induction l as [|x l IH] using rev_ind.
  - by apply elem_of_nil in Hin.
  - rewrite store_snoc. unfold store at 1.
    destruct (decide (x = i)) as [->|Hne].
    + rewrite Hi.
      destruct (Forall2_lookup_l _ _ _ _ _ Hkeys Hi) as (k' & Hk' & Hhash).
      rewrite Hhash. simplify_eq. by rewrite lookup_insert_eq.
    + assert (i ∈ l) as Hl.
      { apply elem_of_app in Hin as [?|?%list_elem_of_singleton]; by subst. }
      destruct (futures !! x) as [f'|] eqn:Hx; [|by apply IH].
      destruct (Forall2_lookup_l _ _ _ _ _ Hkeys Hx) as (k' & Hk' & Hhash).
      rewrite Hhash, lookup_insert_ne; [by apply IH|].
      intros ->. apply Hne. by eapply NoDup_lookup.
Qed.
End stored.

Lemma all_done_permutation n completed :
  completed ≡ₚ seq 0 n → SutaScraper.all_done n completed = true.
Proof.
  intros Hperm. unfold SutaScraper.all_done. apply forallb_forall.
  intros i Hi. apply bool_decide_eq_true. rewrite Hperm.
  by apply list_elem_of_In.
Qed.

Lemma all_done_missing n completed i :
  (i < n)%nat → i ∉ completed → SutaScraper.all_done n completed = false.
Proof.
  intros Hi Hnot. apply not_true_is_false. unfold SutaScraper.all_done.
  rewrite forallb_forall. intros H. apply Hnot.
  eapply bool_decide_eq_true_1, H, in_seq. lia.
Qed.

Lemma submit_all_lookup os world (tasks : list (json * json * string)) i pid url path :
  tasks !! i = Some (pid, url, path) →
  SutaScraper.submit_all os world tasks !! i
  = Some (SutaScraper.Future pid url
            (SutaScraper.download_image os (world i) url path).2).
Proof.
  intros Hi. unfold SutaScraper.submit_all. by rewrite list_lookup_imap, Hi.
Qed.

Lemma submit_all_keys os world (tasks : list (json * json * string)) (keys : list key) :
  Forall2 (λ t k, hash_key t.1.1 = Ok k) tasks keys →
  Forall2 (λ f k, hash_key (SutaScraper.future_pid f) = Ok k)
    (SutaScraper.submit_all os world tasks) keys.
Proof.
  intros Hkeys. apply Forall2_same_length_lookup. split.
  - unfold SutaScraper.submit_all.
    rewrite length_imap. by eapply Forall2_length.
  - intros i f k Hf Hk.
    destruct (tasks !! i) as [[[pid url] path]|] eqn:Hi.
    + rewrite (submit_all_lookup _ _ _ _ _ _ _ Hi) in Hf. simplify_eq. simpl.
      by apply (Forall2_lookup_lr _ _ _ _ _ _ Hkeys Hi Hk).
    + unfold SutaScraper.submit_all in Hf.
      by rewrite list_lookup_imap, Hi in Hf.
Qed.

Lemma submit_all_hashable os world (tasks : list (json * json * string)) :
  Forall (λ t, ∃ k, hash_key t.1.1 = Ok k) tasks →
  Forall hashable_future (SutaScraper.submit_all os world tasks).
Proof.
  intros Htasks. apply Forall_lookup_2. intros i f Hf.
  destruct (tasks !! i) as [[[pid url] path]|] eqn:Hi.
  - rewrite (submit_all_lookup _ _ _ _ _ _ _ Hi) in Hf. simplify_eq.
    apply (Forall_lookup_1 _ _ _ _ Htasks Hi).
  - unfold SutaScraper.submit_all in Hf.
    by rewrite list_lookup_imap, Hi in Hf.
Qed.

(** When every identifier can key a dictionary, the download stage ends
    with [TimeoutError] exactly when some task has not finished in time;
    nothing else escapes it. *)
Lemma download_all_hashable os world completed (tasks : list (json * json * string)) :
  Forall (λ t, ∃ k, hash_key t.1.1 = Ok k) tasks →
  SutaScraper.download_all os world completed tasks
  = (foldl (store (SutaScraper.submit_all os world tasks)) ∅ completed,
     if SutaScraper.all_done (length tasks) completed then None
     else Some TimeoutError).
Proof.
  intros Htasks. unfold SutaScraper.download_all, SutaScraper.collect.
  rewrite collect_loop_stores by by apply submit_all_hashable.
  unfold SutaScraper.submit_all at 2. by rewrite length_imap.
Qed.

(** ** The download stage: claims *)

(** C1, for the runs in which every task finishes within the 60 seconds.
    With N tasks whose identifiers are distinct keys, the download stage
    raises nothing and returns a mapping with exactly these N keys; the
    entry of each identifier is the result of its own [download_image]
    call, whether that succeeded or failed. *)
Theorem download_all_all_finished os world completed
    (tasks : list (json * json * string)) (keys : list key) :
  Forall2 (λ t k, hash_key t.1.1 = Ok k) tasks keys →
  NoDup keys →
  completed ≡ₚ seq 0 (length tasks) →
  ∃ m, SutaScraper.download_all os world completed tasks = (m, None)
       ∧ dom m = list_to_set keys
       ∧ size m = length tasks
       ∧ ∀ i pid url path k,
           tasks !! i = Some (pid, url, path) → keys !! i = Some k →
           Ok <$> m !! k
           = Some (SutaScraper.download_image os (world i) url path).2.
Proof.
  intros Hkeys Hnodup Hperm.
  pose proof (submit_all_keys os world _ _ Hkeys) as Hfutures.
  set (futures := SutaScraper.submit_all os world tasks) in *.
  exists (foldl (store futures) ∅ completed).
  assert (∀ i, (i < length tasks)%nat → i ∈ completed) as Hdone.
  { intros i Hi. rewrite Hperm. apply list_elem_of_In, in_seq. lia. }
  assert (dom (foldl (store futures) ∅ completed) = list_to_set keys) as Hdom.
  { apply set_eq. intros k. rewrite elem_of_dom, elem_of_list_to_set. split.
    - intros [H|H]%(foldl_store_keys _ _ Hfutures); [|done].
      rewrite lookup_empty in H. by destruct H.
    - intros (i & Hi)%list_elem_of_lookup_1.
      destruct (Forall2_lookup_r _ _ _ _ _ Hfutures Hi) as (f & Hf & _).
      rewrite (foldl_store_lookup _ _ Hfutures _ _ i f k); try done.
      apply Hdone. rewrite (Forall2_length _ _ _ Hkeys).
      by eapply lookup_lt_Some. }
  split; [|split; [done|split]].
  - rewrite download_all_hashable.
    + by rewrite all_done_permutation.
    + apply Forall_lookup_2. intros i t Ht.
      destruct (Forall2_lookup_l _ _ _ _ _ Hkeys Ht) as (k & _ & Hk). by exists k.
  - rewrite <- size_dom, Hdom, size_list_to_set by done.
    symmetry. by eapply Forall2_length.
  - intros i pid url path k Hi Hk.
    pose proof (submit_all_lookup os world _ _ _ _ _ Hi) as Hf.
    assert (i ∈ completed) as Hin by (apply Hdone; by eapply lookup_lt_Some).
    rewrite (foldl_store_lookup _ _ Hfutures _ _ i _ k Hnodup Hin Hf Hk).
    unfold future_outcome. simpl.
    by destruct (download_image_returns os (world i) url path) as [v ->].
Qed.

Lemma download_all_all_finished_witness :
  ∃ m, SutaScraper.download_all posixpath first_only [1; 0]%nat two_tasks = (m, None)
       ∧ dom m = {[ KStr "a"; KStr "b" ]}
       ∧ size m = 2%nat
       ∧ m !! KStr "a" = Some (JStr "images/product_a.jpg", true)
       ∧ m !! KStr "b" = Some (JStr "https://cdn.example.com/b/photo.png", false).
Proof.
  destruct (download_all_all_finished posixpath first_only [1; 0]%nat two_tasks
              [KStr "a"; KStr "b"])
    as (m & Hm & Hdom & Hsize & Hlookup).
  - repeat constructor.
  - apply NoDup_cons. split; [|apply NoDup_singleton].
    intros [=]%list_elem_of_singleton.
  - apply perm_swap.
  - exists m. split; [done|]. split; [|split; [done|split]].
    + rewrite Hdom. simpl. by rewrite (right_id_L ∅ (∪)).
    + specialize (Hlookup 0%nat _ _ _ _ eq_refl eq_refl).
      change (SutaScraper.download_image _ _ _ _).2
        with (@Ok (json * bool) (JStr "images/product_a.jpg", true)) in Hlookup.
      destruct (m !! KStr "a"); simpl in Hlookup; by simplify_eq.
    + specialize (Hlookup 1%nat _ _ _ _ eq_refl eq_refl).
      change (SutaScraper.download_image _ _ _ _).2
        with (@Ok (json * bool) (JStr "https://cdn.example.com/b/photo.png", false))
        in Hlookup.
      destruct (m !! KStr "b"); simpl in Hlookup; by simplify_eq.
Defined.

(** C1 as stated fails when the 60 seconds elapse: with the second of two
    tasks still running, [as_completed] raises [TimeoutError]; the stage
    returns no mapping, and the one built so far has one key, not two. *)
Lemma download_all_timeout_counterexample :
  ∃ m, SutaScraper.download_all posixpath first_only [0]%nat two_tasks
       = (m, Some TimeoutError)
       ∧ size m = 1%nat ∧ m !! KStr "b" = None.
Proof.
  eexists. split; [|split].
  - rewrite download_all_hashable by (repeat constructor; by eexists).
    reflexivity.
  - by vm_compute.
  - by vm_compute.
Qed.

(** ** The whole run: claims *)

Lemma prepare_tasks_hashable py_str os IMAGE_FOLDER
    (products : list SutaScraper.product) :
  Forall hashable_id products →
  Forall (λ t : json * json * string, ∃ k, hash_key t.1.1 = Ok k)
    (SutaScraper.prepare_tasks py_str os IMAGE_FOLDER products).
Proof.
  induction 1 as [|p products Hp _ IH]; simpl; [constructor|].
  destruct (truthy (SutaScraper.image p)) eqn:Himage; [|done].
  constructor; [|done]. by apply Hp.
Qed.

(** When the identifiers can key a dictionary and every download
    finishes in time, [save_products] writes the whole report. *)
Lemma save_products_all_finished py_str os IMAGE_FOLDER world completed
    (products : list SutaScraper.product) :
  let tasks := SutaScraper.prepare_tasks py_str os IMAGE_FOLDER products in
  let download_results := (SutaScraper.download_all os world completed tasks).1 in
  Forall hashable_id products →
  completed ≡ₚ seq 0 (length tasks) →
  SutaScraper.save_products py_str os IMAGE_FOLDER world completed products
  = Ok (concat ((λ p, output_record py_str p (image_case_of download_results p))
                  <$> products)).
Proof.
  intros tasks download_results Hids Hperm.
  unfold SutaScraper.save_products, download_results. fold tasks.
  rewrite download_all_hashable by by apply prepare_tasks_hashable.
  rewrite all_done_permutation by done.
  by apply write_report_concat.
Qed.

(** ** The report file *)

Lemma encodable_prefix_all lines : encodable lines → encodable_prefix lines = lines.
Proof.
  induction 1 as [|line lines Hline _ IH]; [done|].
  simpl. by rewrite Hline, IH.
Qed.

Lemma encodable_forallb lines :
  forallb (λ line, negb (has_lone_surrogate line)) lines = true → encodable lines.
Proof.
  intros H. apply Forall_forall. intros line Hin%list_elem_of_In.
  rewrite forallb_forall in H. apply negb_true_iff. by apply H.
Qed.

(** The report is written when the file opens, every text can be encoded
    and the device stores them. *)
Lemma write_file_ok out lines :
  output_opens out = true → encodable lines → output_stores out lines = true →
  write_file out lines = Ok ().
Proof.
  intros Hopen Hlines Hstores. unfold write_file.
  rewrite Hopen, (encodable_prefix_all _ Hlines), Hstores. simpl.
  by rewrite bool_decide_eq_true_2.
Qed.

(** A title with a lone surrogate passes through JSON and normalisation,
    and ends the run in the first [f.write], with [UnicodeEncodeError]. *)
Lemma main_lone_surrogate_title :
  Scraper.main str_of_scalar
    (server Scraper.base_url
       [[obj [("title", JStr lone_surrogate); ("handle", JStr "lehenga");
              ("images", JList []);
              ("variants", JList [obj [("price", JStr "800.00")]])]]])
    2 writable
  = Escapes UnicodeEncodeError.
Proof. by vm_compute. Qed.

(** ** The whole run: claims, continued *)

(** C2 as stated fails: an entry without variants makes [fetch_products]
    raise [IndexError], which nothing catches, in both scripts. *)
Lemma main_no_variants_counterexample :
  Scraper.main str_of_scalar (server Scraper.base_url [[entry 1 [] []]]) 2
    writable
  = Escapes IndexError
  ∧ SutaScraper.main str_of_scalar posixpath "images"
      (server SutaScraper.base_url [[entry 1 [] []]]) 2 first_only [] writable
    = Escapes IndexError.
Proof. split; by vm_compute. Qed.

(** C2, for well-formed catalogues and a working output file.  When the
    pages 1..k are served and their entries normalise, page k+1 is empty or
    fails with an error that the [except] clause catches, the output file
    opens, every text of the report can be encoded and the device stores
    them, the run of scraper.py returns, having written the report of the
    records of pages 1..k.  The run of suta_scraper.py does so too when,
    moreover, the identifiers of the products with an image can key a
    dictionary and every download finishes within the 60 seconds: each
    record is in the report, a failed download showing as the "Image
    download failed" case. *)
Theorem main_returns :
  (∀ py_str get pages records fuel out,
     serves_pages Scraper.base_url (Scraper.normalize py_str) get 1 pages records →
     serves (get (page_url Scraper.base_url (S (length pages)))) []
     ∨ fetch_error (get (page_url Scraper.base_url (S (length pages)))) →
     (length pages < fuel)%nat →
     let lines := Scraper.save_products py_str (concat records) in
     output_opens out = true →
     encodable lines →
     output_stores out lines = true →
     Scraper.main py_str get fuel out = Returns lines)
  ∧
  (∀ py_str os IMAGE_FOLDER get world completed pages records fuel out,
     serves_pages SutaScraper.base_url (SutaScraper.normalize py_str) get 1
       pages records →
     serves (get (page_url SutaScraper.base_url (S (length pages)))) []
     ∨ fetch_error (get (page_url SutaScraper.base_url (S (length pages)))) →
     (length pages < fuel)%nat →
     Forall hashable_id (concat records) →
     completed ≡ₚ seq 0 (length (SutaScraper.prepare_tasks py_str os IMAGE_FOLDER
                                   (concat records))) →
     let tasks :=
       SutaScraper.prepare_tasks py_str os IMAGE_FOLDER (concat records) in
     let download_results :=
       (SutaScraper.download_all os world completed tasks).1 in
     let lines :=
       concat ((λ p, output_record py_str p (image_case_of download_results p))
                 <$> concat records) in
     output_opens out = true →
     encodable lines →
     output_stores out lines = true →
     SutaScraper.main py_str os IMAGE_FOLDER get fuel world completed out
     = Returns lines).
Proof.
  split.
  - intros py_str get pages records fuel out Hpages Hlast Hfuel lines
      Hopen Hlines Hstores.
    pose proof (write_file_ok out lines Hopen Hlines Hstores) as Hwrite.
    unfold Scraper.main, Scraper.fetch_products.
    destruct Hlast as [Hlast|Hlast].
    + rewrite (fetch_products_with_empty_page _ _ _ _ _ _ Hpages Hlast Hfuel).
      simpl. fold lines. by rewrite Hwrite.
    + rewrite (fetch_products_with_fetch_error _ _ _ _ _ _ Hpages Hlast Hfuel).
      simpl. fold lines. by rewrite Hwrite.
  - intros py_str os IMAGE_FOLDER get world completed pages records fuel out
      Hpages Hlast Hfuel Hids Hperm tasks download_results lines
      Hopen Hlines Hstores.
    pose proof (write_file_ok out lines Hopen Hlines Hstores) as Hwrite.
    pose proof (save_products_all_finished py_str os IMAGE_FOLDER world completed
                  (concat records) Hids Hperm) as Hsave.
    unfold SutaScraper.main, SutaScraper.fetch_products.
    destruct Hlast as [Hlast|Hlast].
    + rewrite (fetch_products_with_empty_page _ _ _ _ _ _ Hpages Hlast Hfuel).
      simpl. rewrite Hsave. fold tasks download_results lines. by rewrite Hwrite.
    + rewrite (fetch_products_with_fetch_error _ _ _ _ _ _ Hpages Hlast Hfuel).
      simpl. rewrite Hsave. fold tasks download_results lines. by rewrite Hwrite.
Qed.

Lemma main_returns_witness :
  Scraper.main str_of_scalar
    (server_failing Scraper.base_url [two_entries] 2 (Reply 503 None)) 2 writable
  = Returns (Scraper.save_products str_of_scalar two_records_gift_box)
  ∧
  SutaScraper.main str_of_scalar posixpath "images"
    (server_failing SutaScraper.base_url [two_entries] 2 NoReply) 2
    (λ _, not_found) [0%nat] writable
  = Returns
      (concat ((λ p, output_record str_of_scalar p
                       (if truthy (SutaScraper.image p)
                        then ImageDownloadFailed else NoImageAvailable))
                 <$> two_records)).
Proof.
  split.
  - apply (proj1 main_returns str_of_scalar
             (server_failing Scraper.base_url [two_entries] 2 (Reply 503 None))
             [two_entries] [two_records_gift_box] 2%nat writable).
    + apply serves_pages_of.
      * repeat constructor; done.
      * intros [|i] entries [= <-]. by vm_compute.
    + right. unfold server_failing. cbn [length]. rewrite String.eqb_refl.
      left. lia.
    + simpl. lia.
    + reflexivity.
    + apply encodable_forallb. by vm_compute.
    + reflexivity.
  - etrans.
    + apply (proj2 main_returns str_of_scalar posixpath "images"
               (server_failing SutaScraper.base_url [two_entries] 2 NoReply)
               (λ _, not_found) [0%nat] [two_entries] [two_records] 2%nat
               writable).
      * apply serves_pages_of.
        -- repeat constructor; done.
        -- intros [|i] entries [= <-]. by vm_compute.
      * right. unfold server_failing. cbn [length].
        by rewrite String.eqb_refl.
      * simpl. lia.
      * exact two_records_hashable.
      * reflexivity.
      * reflexivity.
      * apply encodable_forallb. by vm_compute.
      * reflexivity.
    + by vm_compute.
Defined.

(** ** The file extension *)

Lemma rfind_from_app c s t : ∀ i last,
  rfind_from c (s +:+ t) i last
  = rfind_from c t (i + Z.of_nat (String.length s)) (rfind_from c s i last).
Proof.
  induction s as [|a s IH]; intros i last; simpl.
  - by rewrite Z.add_0_r.
  - rewrite IH. f_equal. lia.
Qed.

Lemma rfind_from_absent c t : ∀ i last,
  occurs c t = false → rfind_from c t i last = last.
Proof.
  induction t as [|a t IH]; intros i last; simpl; [done|].
  intros [Ha Ht]%orb_false_elim. rewrite Ha. by apply IH.
Qed.

Lemma rfind_app_absent c s t :
  occurs c t = false → rfind c (s +:+ t) = rfind c s.
Proof.
  intros Ht. unfold rfind. by rewrite rfind_from_app, rfind_from_absent.
Qed.

Lemma rfind_from_bounds c s : ∀ i last,
  last < i →
  rfind_from c s i last < i + Z.of_nat (String.length s).
Proof.
  induction s as [|a s IH]; intros i last Hlast; simpl; [lia|].
  destruct (Ascii.eqb a c).
  - specialize (IH (i + 1) i). lia.
  - specialize (IH (i + 1) last). lia.
Qed.

Lemma rfind_from_lower c s : ∀ i last, last ≤ rfind_from c s i last ∨ i ≤ rfind_from c s i last.
Proof.
  induction s as [|a s IH]; intros i last; simpl; [lia|].
  destruct (Ascii.eqb a c).
  - destruct (IH (i + 1) i); lia.
  - destruct (IH (i + 1) last); lia.
Qed.

Lemma rfind_bounds c s : -1 ≤ rfind c s < Z.of_nat (String.length s).
Proof.
  unfold rfind. pose proof (rfind_from_bounds c s 0 (-1)).
  pose proof (rfind_from_lower c s 0 (-1)). lia.
Qed.

Lemma string_take_app n s t :
  (n ≤ String.length s)%nat → string_take n (s +:+ t) = string_take n s.
Proof.
  revert s. induction n as [|n IH]; intros s H; [done|].
  destruct s as [|a s]; simpl in *; [lia|]. f_equal. apply IH. lia.
Qed.

Lemma string_drop_app n s t :
  (n ≤ String.length s)%nat → string_drop n (s +:+ t) = string_drop n s +:+ t.
Proof.
  revert s. induction n as [|n IH]; intros s H; [done|].
  destruct s as [|a s]; simpl in *; [lia|]. apply IH. lia.
Qed.

Lemma has_non_dot_app n s t :
  (n ≤ String.length s)%nat → has_non_dot n (s +:+ t) = has_non_dot n s.
Proof.
  revert s. induction n as [|n IH]; intros s H; [done|].
  destruct s as [|a s]; simpl in *; [lia|].
  destruct (Ascii.eqb a "."); [|done]. apply IH. lia.
Qed.

Lemma string_drop_length n s :
  String.length (string_drop n s) = (String.length s - n)%nat.
Proof.
  revert s. induction n as [|n IH]; intros s; simpl; [lia|].
  destruct s as [|a s]; simpl; [done|]. apply IH.
Qed.

Lemma occurs_string_drop c n s :
  occurs c s = false → occurs c (string_drop n s) = false.
Proof.
  revert s. induction n as [|n IH]; intros s; [done|].
  destruct s as [|a s]; simpl; [done|].
  intros [_ ?]%orb_false_elim. by apply IH.
Qed.

Lemma split_head_app c s t :
  occurs c s = false → split_head c (s +:+ t) = s +:+ split_head c t.
Proof.
  induction s as [|a s IH]; simpl; [done|].
  intros [Ha Hs]%orb_false_elim. rewrite Ha. by rewrite IH.
Qed.

Lemma string_app_empty_r (s : string) : s +:+ "" = s.
Proof.
  induction s as [|a s IH]; [done|].
  change (String a (s +:+ "") = String a s). by rewrite IH.
Qed.

Lemma splitext_app os path tail :
  no_dot_or_sep os tail →
  splitext os (path +:+ tail)
  = let '(root, ext) := splitext os path in
    if String.eqb ext "" then (path +:+ tail, "") else (root, ext +:+ tail).
Proof.
  intros (Hdot & Hsep & Haltsep). unfold splitext.
  rewrite !rfind_app_absent by done.
  assert ((match altsep os with
           | Some a => Z.max (rfind (sep os) path) (rfind a (path +:+ tail))
           | None => rfind (sep os) path
           end)
          = match altsep os with
            | Some a => Z.max (rfind (sep os) path) (rfind a path)
            | None => rfind (sep os) path
            end) as ->.
  { destruct (altsep os); [|done]. by rewrite rfind_app_absent. }
  set (sepIndex := match altsep os with Some _ => _ | None => _ end).
  set (dotIndex := rfind "." path).
  assert (-1 ≤ sepIndex) as Hs.
  { unfold sepIndex. pose proof (rfind_bounds (sep os) path).
    destruct (altsep os); lia. }
  pose proof (rfind_bounds "." path) as Hd. fold dotIndex in Hd.
  case_bool_decide as Hgt; simpl; [|done].
  rewrite string_drop_app by lia.
  rewrite has_non_dot_app by (rewrite string_drop_length; lia).
  destruct (has_non_dot _ _); simpl; [|done].
  rewrite string_take_app, string_drop_app by lia.
  destruct (string_drop (Z.to_nat dotIndex) path) eqn:Hdrop; [|done].
  pose proof (string_drop_length (Z.to_nat dotIndex) path) as Hlen.
  rewrite Hdrop in Hlen. simpl in Hlen. lia.
Qed.

Lemma splitext_ext_suffix os path :
  ∃ n, (splitext os path).2 = string_drop n path ∨ (splitext os path).2 = "".
Proof.
  unfold splitext. destruct (_ && _); simpl; [eauto|]. exists 0%nat. eauto.
Qed.

(** When the query string has no dot and no separator, the extension is
    the one of the path. *)
Lemma extension_plain_query os path tail :
  occurs "?" path = false →
  split_head "?" tail = "" →
  no_dot_or_sep os tail →
  SutaScraper.extension os (path +:+ tail) = extension_of_path os (path +:+ tail).
Proof.
  intros Hpath Htail Hplain. unfold SutaScraper.extension, extension_of_path.
  rewrite split_head_app, Htail, string_app_empty_r by done.
  rewrite splitext_app by done.
  destruct (splitext_ext_suffix os path) as [n Hext].
  destruct (splitext os path) as [root ext]. simpl in *.
  destruct (String.eqb ext "") eqn:Hempty; simpl.
  - apply String.eqb_eq in Hempty as ->. done.
  - rewrite split_head_app, Htail, string_app_empty_r; [done|].
    destruct Hext as [->| ->]; [by apply occurs_string_drop|done].
Qed.

(** On success the file written, and returned, is the stem followed by
    the extension. *)
Lemma download_image_success os env url filename events result :
  SutaScraper.download_image os env url filename = (events, Ok (result, true)) →
  ∃ u chunks,
    url = JStr u
    ∧ result = JStr (filename +:+ SutaScraper.extension os u)
    ∧ events = FileOpened (filename +:+ SutaScraper.extension os u)
               :: (ChunkWritten (filename +:+ SutaScraper.extension os u) <$> chunks).
Proof.
  unfold SutaScraper.download_image, SutaScraper.download_body.
  destruct url as [| | | |u| |]; try (simpl; intros; by simplify_eq).
  destruct (http_get env u) as [|status chunks complete];
    [simpl; intros; by simplify_eq|].
  destruct (raise_for_status status) as [[]|e];
    [|destruct (is_RequestException e); intros; by simplify_eq].
  destruct (can_open env _); [|simpl; intros; by simplify_eq].
  destruct complete; [|simpl; intros; by simplify_eq].
  intros [= <- <-]. by exists u, chunks.
Qed.

(** C8 fails on a URL whose query string has a dot: [splitext] is applied
    to the whole URL, so the extension is cut out of the query string
    ([.2]) and not out of the path ([.jpg]); the file is written under the
    stem followed by [.2]. *)
Theorem extension_query_with_dot :
  SutaScraper.extension posixpath "https://cdn.example.com/a/photo.jpg?v=1.2" = ".2"
  ∧ extension_of_path posixpath "https://cdn.example.com/a/photo.jpg?v=1.2" = ".jpg"
  ∧ SutaScraper.download_image posixpath all_fine
      (JStr "https://cdn.example.com/a/photo.jpg?v=1.2") "images/product_1"
    = ([FileOpened "images/product_1.2"; ChunkWritten "images/product_1.2" "chunk"],
       Ok (JStr "images/product_1.2", true)).
Proof. repeat split; by vm_compute. Qed.

(** * Further properties *)

(** ** The pagination loop *)

(** Two different pages have different URLs. *)
Theorem page_url_distinct base_url (p q : nat) :
  p ≠ q → page_url base_url p ≠ page_url base_url q.
Proof.
  intros Hne Heq. apply Hne. unfold page_url in Heq.
  apply (inj (String.app base_url)) in Heq.
  apply (inj (String.app "?limit=250&page=")) in Heq.
  by apply (inj pretty) in Heq.
Qed.

Lemma page_url_distinct_witness :
  page_url SutaScraper.base_url 1 ≠ page_url SutaScraper.base_url 2.
Proof. apply page_url_distinct. lia. Defined.

Section loop_facts.
Context {A : Type}.
Variable base_url : string.
Variable normalize : json → result A.
Variable get : string → http_reply.

Lemma fetch_loop_requested fuel : ∀ page all_products requested,
  ∃ n, (Nat.min 1 fuel ≤ n ≤ fuel)%nat
       ∧ (fetch_loop base_url normalize get fuel page all_products requested).1
         = requested ++ (page_url base_url <$> seq page n).
Proof.
  induction fuel as [|fuel IH]; intros page acc req.
  - exists 0%nat. simpl. by rewrite app_nil_r.
  - simpl.
    assert (∀ r : run (list A),
            ∃ n, (Nat.min 1 (S fuel) ≤ n ≤ S fuel)%nat
                 ∧ (req ++ [page_url base_url page], r).1
                   = req ++ (page_url base_url <$> seq page n)) as Hstop.
    { intros r. exists 1%nat. split; [lia | done]. }
    destruct (get_json get (page_url base_url page)) as [data|e].
    + destruct (get_default data "products" (JList [])) as [products|e];
        [|by apply Hstop].
      destruct (negb (truthy products)); [by apply Hstop|].
      destruct (iterate products ≫= mapM normalize) as [records|e];
        [|by apply Hstop].
      destruct (IH (S page) (acc ++ records) (req ++ [page_url base_url page]))
        as (n & Hn & Hreq).
      exists (S n). split; [lia|].
      rewrite Hreq. simpl. by rewrite <- app_assoc.
    + destruct (is_RequestException e || is_ValueError e); by apply Hstop.
Qed.

Lemma fetch_loop_endless fuel : ∀ page all_products requested,
  (∀ page, ∃ entries records,
     entries ≠ [] ∧ serves (get (page_url base_url page)) entries
     ∧ mapM normalize entries = Ok records) →
  (fetch_loop base_url normalize get fuel page all_products requested).2
  = OutOfFuel.
Proof.
  induction fuel as [|fuel IH]; intros page acc req Hget; [done|].
  destruct (Hget page) as (entries & records & Hne & Hserves & Hrecords).
  apply get_json_serves in Hserves as (data & Hdata & Hproducts).
  simpl. rewrite Hdata, Hproducts.
  destruct entries as [|p entries]; [done|].
  cbn [truthy negb iterate]. rewrite bind_Ok, Hrecords. by apply IH.
Qed.

Lemma fetch_loop_not_an_object fuel page all_products requested status data :
  get (page_url base_url page) = Reply status (Some data) →
  ¬ (400 ≤ status < 600) →
  (∀ m, data ≠ JObj m) →
  fetch_loop base_url normalize get (S fuel) page all_products requested
  = (requested ++ [page_url base_url page], Escapes AttributeError).
Proof.
  intros Hreply Hstatus Hdata.
  simpl. unfold get_json, raise_for_status. rewrite Hreply.
  rewrite bool_decide_eq_false_2 by done.
  destruct data as [| | | | | |m]; try done. by destruct (Hdata m).
Qed.

Lemma fetch_loop_no_products fuel page all_products requested status
    (m : gmap string json) :
  get (page_url base_url page) = Reply status (Some (JObj m)) →
  ¬ (400 ≤ status < 600) →
  truthy (default (JList []) (m !! "products")) = false →
  fetch_loop base_url normalize get (S fuel) page all_products requested
  = (requested ++ [page_url base_url page], Returns all_products).
Proof.
  intros Hreply Hstatus Hfalsy.
  simpl. unfold get_json, raise_for_status. rewrite Hreply.
  rewrite bool_decide_eq_false_2 by done. simpl. by rewrite Hfalsy.
Qed.
End loop_facts.

(** The loop of [fetch_products] (of both scripts) asks for the pages 1, 2,
    3, ... in this order, each once, whatever the server answers: with
    fuel for [fuel] rounds it makes [n] requests, for the pages 1..n, with
    [n] at most [fuel] and at least 1 if there is any fuel. *)
Theorem fetch_products_requests_in_order {A : Type} (base_url : string)
    (normalize : json → result A) (get : string → http_reply) (fuel : nat) :
  ∃ n, (Nat.min 1 fuel ≤ n ≤ fuel)%nat
       ∧ (fetch_products_with base_url normalize get fuel).1
         = page_url base_url <$> seq 1 n.
Proof.
  destruct (fetch_loop_requested base_url normalize get fuel 1 [] [])
    as (n & Hn & Hreq).
  by exists n.
Qed.

(** A body that is JSON but not an object (a list, a string, [null]) is
    not a fetch error for [fetch_products]: [data.get] raises
    [AttributeError], which is not caught, and the records of the pages
    before are lost with it. *)
Theorem fetch_products_not_an_object {A : Type} (base_url : string)
    (normalize : json → result A) (get : string → http_reply)
    pages records fuel status data :
  serves_pages base_url normalize get 1 pages records →
  get (page_url base_url (S (length pages))) = Reply status (Some data) →
  ¬ (400 ≤ status < 600) →
  (∀ m, data ≠ JObj m) →
  (length pages < fuel)%nat →
  fetch_products_with base_url normalize get fuel
  = (page_url base_url <$> seq 1 (S (length pages)), Escapes AttributeError).
Proof.
  intros Hpages Hreply Hstatus Hdata Hfuel. unfold fetch_products_with.
  replace fuel with (length pages + S (fuel - S (length pages)))%nat by lia.
  rewrite (fetch_loop_pages _ _ _ _ _ _ _ _ _ Hpages).
  rewrite (fetch_loop_not_an_object _ _ _ _ _ _ _ status data) by done.
  by rewrite seq_S, fmap_app.
Qed.

Lemma fetch_products_not_an_object_witness :
  SutaScraper.fetch_products str_of_scalar
    (server_failing SutaScraper.base_url [two_entries] 2 list_body) 2
  = (page_url SutaScraper.base_url <$> [1; 2]%nat, Escapes AttributeError).
Proof.
  apply (fetch_products_not_an_object SutaScraper.base_url
           (SutaScraper.normalize str_of_scalar)
           (server_failing SutaScraper.base_url [two_entries] 2 list_body)
           [two_entries] [two_records] 2 200 (JList [])).
  - apply serves_pages_of.
    + repeat constructor; done.
    + intros [|i] entries [= <-]. by vm_compute.
  - unfold server_failing. cbn [length]. by rewrite String.eqb_refl.
  - lia.
  - done.
  - simpl. lia.
Defined.

(** A page whose object has no ["products"] key, or has a falsy value
    under it ([null], [[]], [""], [0], [{}]), ends the pagination like an
    empty page: [fetch_products] returns the records of the pages
    before. *)
Theorem fetch_products_no_products {A : Type} (base_url : string)
    (normalize : json → result A) (get : string → http_reply)
    pages records fuel status (m : gmap string json) :
  serves_pages base_url normalize get 1 pages records →
  get (page_url base_url (S (length pages))) = Reply status (Some (JObj m)) →
  ¬ (400 ≤ status < 600) →
  truthy (default (JList []) (m !! "products")) = false →
  (length pages < fuel)%nat →
  fetch_products_with base_url normalize get fuel
  = (page_url base_url <$> seq 1 (S (length pages)), Returns (concat records)).
Proof.
  intros Hpages Hreply Hstatus Hfalsy Hfuel. unfold fetch_products_with.
  replace fuel with (length pages + S (fuel - S (length pages)))%nat by lia.
  rewrite (fetch_loop_pages _ _ _ _ _ _ _ _ _ Hpages).
  rewrite (fetch_loop_no_products _ _ _ _ _ _ _ status m) by done.
  by rewrite seq_S, fmap_app.
Qed.

Lemma fetch_products_no_products_witness :
  Scraper.fetch_products str_of_scalar
    (server_failing Scraper.base_url [two_entries] 2 no_products_key) 2
  = (page_url Scraper.base_url <$> [1; 2]%nat, Returns two_records_gift_box).
Proof.
  apply (fetch_products_no_products Scraper.base_url
           (Scraper.normalize str_of_scalar)
           (server_failing Scraper.base_url [two_entries] 2 no_products_key)
           [two_entries] [two_records_gift_box] 2 200
           (list_to_map [("errors", JStr "Not Found")])).
  - apply serves_pages_of.
    + repeat constructor; done.
    + intros [|i] entries [= <-]. by vm_compute.
  - unfold server_failing. cbn [length]. by rewrite String.eqb_refl.
  - lia.
  - by vm_compute.
  - simpl. lia.
Defined.

(** There is no cap on the number of pages: against a server that has a
    non-empty, well-formed page under every page number, the loop of
    [fetch_products] is still running after any number of rounds. *)
Theorem fetch_products_no_page_cap {A : Type} (base_url : string)
    (normalize : json → result A) (get : string → http_reply) :
  (∀ page, ∃ entries records,
     entries ≠ [] ∧ serves (get (page_url base_url page)) entries
     ∧ mapM normalize entries = Ok records) →
  ∀ fuel, (fetch_products_with base_url normalize get fuel).2 = OutOfFuel.
Proof. intros Hget fuel. by apply fetch_loop_endless. Qed.

Lemma fetch_products_no_page_cap_witness :
  (SutaScraper.fetch_products str_of_scalar endless 7).2 = OutOfFuel.
Proof.
  apply (fetch_products_no_page_cap SutaScraper.base_url
           (SutaScraper.normalize str_of_scalar) endless).
  intros page. exists two_entries, two_records.
  split; [done|]. split; [|done].
  exists 200, (obj [("products", JList two_entries)]).
  split; [done|]. split; [lia | done].
Defined.

(** The two scripts accept the same entries, but for the ["id"] that only
    suta_scraper.py reads: an entry that suta_scraper.py normalises is
    normalised by scraper.py to the same title, price, image URL and
    product URL. *)
Theorem normalize_agree py_str p (r : SutaScraper.product) :
  SutaScraper.normalize py_str p = Ok r →
  Scraper.normalize py_str p
  = Ok (Scraper.Product (SutaScraper.title r) (SutaScraper.price r)
          (SutaScraper.image r) (SutaScraper.url r)).
Proof.
  unfold SutaScraper.normalize, Scraper.normalize.
  destruct (first_image_src p) as [image|]; simpl; [|done].
  destruct (getitem_str p "id") as [pid|]; simpl; [|done].
  destruct (getitem_str p "title") as [title|]; simpl; [|done].
  destruct (first_variant_price p) as [price|]; simpl; [|done].
  destruct (getitem_str p "handle") as [handle|]; simpl; [|done].
  by intros [= <-].
Qed.

Lemma normalize_agree_witness :
  Scraper.normalize str_of_scalar
    (entry 1 ["https://cdn.example.com/a/photo.jpg?v=12"] ["1200.00"])
  = Ok (Scraper.Product (JStr "Lehenga") (JStr "1200.00")
          (JStr "https://cdn.example.com/a/photo.jpg?v=12")
          "https://suta.in/products/lehenga").
Proof.
  exact (normalize_agree str_of_scalar
           (entry 1 ["https://cdn.example.com/a/photo.jpg?v=12"] ["1200.00"])
           (SutaScraper.Product (JInt 1) (JStr "Lehenga") (JStr "1200.00")
              (JStr "https://cdn.example.com/a/photo.jpg?v=12")
              "https://suta.in/products/lehenga")
           eq_refl).
Defined.

(** ** One download task *)

(** [download_image] reports success only when the URL is a string,
    the reply has no error status, the destination file has been opened
    and the stream has been read to its end; the path it returns is then
    the stem followed by the extension. *)
Theorem download_image_success_only_if os env url filename (result : json) :
  (SutaScraper.download_image os env url filename).2 = Ok (result, true) →
  ∃ u status chunks,
    url = JStr u
    ∧ http_get env u = ImgReply status chunks true
    ∧ ¬ (400 ≤ status < 600)
    ∧ can_open env (filename +:+ SutaScraper.extension os u) = true
    ∧ result = JStr (filename +:+ SutaScraper.extension os u).
Proof.
  unfold SutaScraper.download_image, SutaScraper.download_body, raise_for_status.
  destruct url as [| | | |u| |]; try (simpl; intros; by simplify_eq).
  destruct (http_get env u) as [|status chunks complete] eqn:Hget;
    [simpl; intros; by simplify_eq|].
  case_bool_decide as Hstatus; [simpl; intros; by simplify_eq|].
  destruct (can_open env _) eqn:Hopen; [|simpl; intros; by simplify_eq].
  destruct complete; [|simpl; intros; by simplify_eq].
  simpl. intros [= <-]. by exists u, status, chunks.
Qed.

Lemma download_image_success_only_if_witness :
  ∃ u status chunks,
    JStr "https://cdn.example.com/a/photo.png" = JStr u
    ∧ http_get all_fine u = ImgReply status chunks true
    ∧ ¬ (400 ≤ status < 600)
    ∧ can_open all_fine ("images/product_7" +:+ SutaScraper.extension posixpath u)
      = true
    ∧ JStr "images/product_7.png"
      = JStr ("images/product_7" +:+ SutaScraper.extension posixpath u).
Proof.
  apply (download_image_success_only_if posixpath all_fine
           (JStr "https://cdn.example.com/a/photo.png") "images/product_7"
           (JStr "images/product_7.png")).
  by vm_compute.
Defined.



(** [download_image] touches no file but its destination, the stem
    followed by the extension, and touches it only once the server has
    answered with a status that is not an error: a refused or failed
    request creates no file. *)
Theorem download_image_touches_only_target os env url filename ev f :
  ev ∈ (SutaScraper.download_image os env url filename).1 →
  event_file ev = Some f →
  ∃ u status chunks complete,
    url = JStr u
    ∧ f = filename +:+ SutaScraper.extension os u
    ∧ http_get env u = ImgReply status chunks complete
    ∧ ¬ (400 ≤ status < 600).
Proof.
  unfold SutaScraper.download_image, SutaScraper.download_body, raise_for_status.
  assert (∀ l : json, ev ∈ [LogError l] → event_file ev = Some f → False) as Herr.
  { by intros l ->%list_elem_of_singleton. }
  assert (∀ l : json, ev ∈ [LogWarning l] → event_file ev = Some f → False)
    as Hwarn.
  { by intros l ->%list_elem_of_singleton. }
  destruct url as [| | | |u| |]; simpl;
    try (intros Hev Hf; by destruct (Herr _ Hev Hf)).
  destruct (http_get env u) as [|status chunks complete] eqn:Hget; simpl;
    [intros Hev Hf; by destruct (Hwarn _ Hev Hf)|].
  case_bool_decide as Hstatus; simpl;
    [intros Hev Hf; by destruct (Hwarn _ Hev Hf)|].
  destruct (can_open env _) eqn:Hopen; simpl;
    [|intros Hev Hf; by destruct (Herr _ Hev Hf)].
  set (target := filename +:+ SutaScraper.extension os u).
  assert (ev ∈ FileOpened target :: (ChunkWritten target <$> chunks) →
          event_file ev = Some f → f = target) as Htarget.
  { intros [->|Hev]%elem_of_cons; [by intros [= <-]|].
    apply list_elem_of_fmap in Hev as (c & -> & _). by intros [= <-]. }
  intros Hev Hf. exists u, status, chunks, complete.
  split; [done|]. split; [|done].
  destruct complete; simpl in Hev; [by apply Htarget|].
  change (ev ∈ (FileOpened target :: (ChunkWritten target <$> chunks))
               ++ [LogWarning (JStr u)]) in Hev.
  apply elem_of_app in Hev as [Hev|Hev]; [by apply Htarget|].
  by destruct (Hwarn _ Hev Hf).
Qed.

Lemma download_image_touches_only_target_witness :
  ∃ u status chunks complete,
    JStr "https://cdn.example.com/a/photo.png" = JStr u
    ∧ "images/product_7.png" = "images/product_7" +:+ SutaScraper.extension posixpath u
    ∧ http_get broken_stream u = ImgReply status chunks complete
    ∧ ¬ (400 ≤ status < 600).
Proof.
  apply (download_image_touches_only_target posixpath broken_stream
           (JStr "https://cdn.example.com/a/photo.png") "images/product_7"
           (ChunkWritten "images/product_7.png" "chunk2") "images/product_7.png").
  - assert ((SutaScraper.download_image posixpath broken_stream
               (JStr "https://cdn.example.com/a/photo.png") "images/product_7").1
            = [FileOpened "images/product_7.png";
               ChunkWritten "images/product_7.png" "chunk1";
               ChunkWritten "images/product_7.png" "chunk2";
               LogWarning (JStr "https://cdn.example.com/a/photo.png")]) as ->
      by (by vm_compute).
    apply elem_of_cons. right. apply elem_of_cons. right.
    apply elem_of_cons. by left.
  - done.
Defined.

(** ** The file extension *)

Lemma extension_plain_query_witness :
  SutaScraper.extension posixpath
    ("https://cdn.example.com/a/photo.jpg" +:+ "?v=12&width=600")
  = extension_of_path posixpath
      ("https://cdn.example.com/a/photo.jpg" +:+ "?v=12&width=600").
Proof.
  apply (extension_plain_query posixpath
           "https://cdn.example.com/a/photo.jpg" "?v=12&width=600").
  - reflexivity.
  - reflexivity.
  - repeat split; reflexivity.
Defined.

Lemma string_take_drop n s : string_take n s +:+ string_drop n s = s.
Proof.
  revert s. induction n as [|n IH]; intros s; [done|].
  destruct s as [|a s]; [done|].
  change (String a (string_take n s +:+ string_drop n s) = String a s).
  by rewrite IH.
Qed.

(** [os.path.splitext] only cuts: the root followed by the extension is
    the path it was given. *)
Theorem splitext_join os p : (splitext os p).1 +:+ (splitext os p).2 = p.
Proof.
  unfold splitext. destruct (_ && _); simpl.
  - apply string_take_drop.
  - apply string_app_empty_r.
Qed.

Lemma rfind_from_last_or_found c s : ∀ i last,
  rfind_from c s i last = last ∨ i ≤ rfind_from c s i last.
Proof.
  induction s as [|a s IH]; intros i last; simpl; [by left|].
  destruct (Ascii.eqb a c).
  - destruct (IH (i + 1) i); lia.
  - destruct (IH (i + 1) last); lia.
Qed.

Lemma rfind_from_char c s : ∀ i last,
  last < i → i ≤ rfind_from c s i last →
  ∃ rest, string_drop (Z.to_nat (rfind_from c s i last - i)) s = String c rest.
Proof.
  induction s as [|a s IH]; intros i last Hlast; simpl; [lia|].
  intros Hfound.
  set (last' := if Ascii.eqb a c then i else last) in *.
  destruct (decide (i + 1 ≤ rfind_from c s (i + 1) last')) as [Hlater|Hhere].
  - destruct (IH (i + 1) last') as [rest Hrest]; [|done|].
    { unfold last'. destruct (Ascii.eqb a c); lia. }
    exists rest.
    replace (Z.to_nat (rfind_from c s (i + 1) last' - i))
      with (S (Z.to_nat (rfind_from c s (i + 1) last' - (i + 1)))) by lia.
    done.
  - destruct (rfind_from_last_or_found c s (i + 1) last') as [Heq|?]; [|lia].
    rewrite Heq in *. unfold last' in *.
    destruct (Ascii.eqb a c) eqn:Hac; [|lia].
    apply Ascii.eqb_eq in Hac as ->.
    replace (Z.to_nat (i - i)) with 0%nat by lia. by eexists.
Qed.

Lemma rfind_char c s :
  0 ≤ rfind c s → ∃ rest, string_drop (Z.to_nat (rfind c s)) s = String c rest.
Proof.
  intros H. destruct (rfind_from_char c s 0 (-1)) as [rest Hrest]; [lia|done|].
  exists rest. by rewrite Z.sub_0_r in Hrest.
Qed.

Lemma occurs_after_rfind_from c s : ∀ i last (n : nat),
  rfind_from c s i last < i + Z.of_nat n →
  occurs c (string_drop n s) = false.
Proof.
  induction s as [|a s IH]; intros i last n; simpl.
  - by destruct n.
  - intros Hn.
    pose proof (rfind_from_lower c s (i + 1)
                  (if Ascii.eqb a c then i else last)) as Hlow.
    destruct n as [|n]; simpl.
    + destruct (Ascii.eqb a c) eqn:Hac; [lia|]. simpl.
      apply (IH (i + 1) last 0%nat). lia.
    + apply (IH (i + 1) (if Ascii.eqb a c then i else last) n). lia.
Qed.

Lemma occurs_after_rfind c s (n : nat) :
  rfind c s < Z.of_nat n → occurs c (string_drop n s) = false.
Proof. intros H. by apply (occurs_after_rfind_from c s 0 (-1) n). Qed.

Lemma occurs_split_head c d s :
  occurs c s = false → occurs c (split_head d s) = false.
Proof.
  induction s as [|a s IH]; simpl; [done|].
  intros [Ha Hs]%orb_false_elim. destruct (Ascii.eqb a d); [done|].
  simpl. by rewrite Ha, IH.
Qed.

Lemma occurs_split_head_self c s : occurs c (split_head c s) = false.
Proof.
  induction s as [|a s IH]; simpl; [done|].
  destruct (Ascii.eqb a c) eqn:Hac; [done|]. simpl. by rewrite Hac, IH.
Qed.

Lemma splitext_ext_shape os p :
  (splitext os p).2 = ""
  ∨ (∃ rest, (splitext os p).2 = String "." rest) ∧ no_sep os (splitext os p).2.
Proof.
  unfold splitext.
  set (sepIndex := match altsep os with Some _ => _ | None => _ end).
  destruct (bool_decide (rfind "." p > sepIndex)) eqn:Hgt; simpl; [|by left].
  destruct (has_non_dot _ _); simpl; [|by left].
  apply bool_decide_eq_true in Hgt.
  pose proof (rfind_bounds (sep os) p) as Hsep.
  assert (rfind (sep os) p ≤ sepIndex) as Hsep'.
  { unfold sepIndex. destruct (altsep os); lia. }
  right. split.
  - apply rfind_char. lia.
  - split.
    + apply occurs_after_rfind. lia.
    + destruct (altsep os) as [a|] eqn:Ha; [|done].
      apply occurs_after_rfind.
      assert (rfind a p ≤ sepIndex) by (unfold sepIndex; lia). lia.
Qed.

(** On both flavours of [os.path], the extension that [download_image]
    appends to the stem starts with a dot and has no [?] and no path
    separator in it: the destination stays in the folder of the stem. *)
Theorem extension_shape os (url : string) :
  os = posixpath ∨ os = ntpath →
  (∃ rest, SutaScraper.extension os url = String "." rest)
  ∧ occurs "?" (SutaScraper.extension os url) = false
  ∧ no_sep os (SutaScraper.extension os url).
Proof.
  intros Hos. unfold SutaScraper.extension.
  destruct (splitext_ext_shape os url) as [->|[[rest Hrest] [Hsep Haltsep]]].
  - destruct Hos as [->| ->]; (split; [by eexists|by repeat split]).
  - rewrite Hrest in *. simpl. split; [by eexists|]. split.
    + simpl. apply occurs_split_head_self.
    + change (String "." (split_head "?" rest))
        with (split_head "?" (String "." rest)).
      split; [by apply occurs_split_head|].
      destruct (altsep os); [by apply occurs_split_head|done].
Qed.

Lemma extension_shape_witness :
  (∃ rest, SutaScraper.extension ntpath "https://cdn.example.com/a/photo.jpg?v=1/2"
           = String "." rest)
  ∧ occurs "?" (SutaScraper.extension ntpath
                  "https://cdn.example.com/a/photo.jpg?v=1/2") = false
  ∧ no_sep ntpath (SutaScraper.extension ntpath
                     "https://cdn.example.com/a/photo.jpg?v=1/2").
Proof.
  apply (extension_shape ntpath "https://cdn.example.com/a/photo.jpg?v=1/2").
  by right.
Defined.

(** ** The download stage and the report *)

(** A dictionary entry can be read back: after [download_results[pid] = v],
    [download_results.get(pid, (None, False))] is [v], and the entries
    under other keys are as before. *)
Theorem setitem_get_result d d' pid v :
  SutaScraper.setitem d pid v = Ok d' →
  SutaScraper.get_result d' pid = Ok v
  ∧ ∀ pid' k k', hash_key pid = Ok k → hash_key pid' = Ok k' → k ≠ k' →
      SutaScraper.get_result d' pid' = SutaScraper.get_result d pid'.
Proof.
  unfold SutaScraper.setitem, SutaScraper.get_result.
  destruct (hash_key pid) as [k|e] eqn:Hk; simpl; [|done].
  intros [= <-]. split.
  - by rewrite lookup_insert_eq.
  - intros pid' k1 k' [= <-] -> Hne. simpl. by rewrite lookup_insert_ne.
Qed.

Lemma setitem_get_result_witness :
  SutaScraper.get_result {[ KStr "a" := (JStr "images/product_a.jpg", true) ]}
    (JStr "a")
  = Ok (JStr "images/product_a.jpg", true).
Proof.
  exact (proj1 (setitem_get_result ∅ _ (JStr "a")
                  (JStr "images/product_a.jpg", true) eq_refl)).
Defined.

Lemma prepare_tasks_filter py_str os IMAGE_FOLDER
    (products : list SutaScraper.product) :
  SutaScraper.prepare_tasks py_str os IMAGE_FOLDER products
  = (λ p, (SutaScraper.id p, SutaScraper.image p,
           SutaScraper.img_path py_str os IMAGE_FOLDER (SutaScraper.id p)))
      <$> filter (λ p, truthy (SutaScraper.image p) = true) products.
Proof.
  induction products as [|p products IH]; [done|].
  simpl. rewrite filter_cons.
  destruct (truthy (SutaScraper.image p)) eqn:Himage.
  - rewrite decide_True by done. simpl. by rewrite IH.
  - rewrite decide_False by done. done.
Qed.

(** The download tasks are the products that have an image URL, in the
    order of the products, one task each; so there are as many tasks as
    such products, and none when no product has an image. *)
Theorem prepare_tasks_products py_str os IMAGE_FOLDER
    (products : list SutaScraper.product) :
  SutaScraper.prepare_tasks py_str os IMAGE_FOLDER products
  = (λ p, (SutaScraper.id p, SutaScraper.image p,
           SutaScraper.img_path py_str os IMAGE_FOLDER (SutaScraper.id p)))
      <$> filter (λ p, truthy (SutaScraper.image p) = true) products
  ∧ (length (SutaScraper.prepare_tasks py_str os IMAGE_FOLDER products)
     ≤ length products)%nat.
Proof.
  split; [apply prepare_tasks_filter|].
  rewrite prepare_tasks_filter, length_fmap. apply length_filter.
Qed.

Lemma collect_loop_no_futures completed d :
  SutaScraper.collect_loop [] completed d = (d, None).
Proof. induction completed as [|i completed IH]; [done|]. simpl. apply IH. Qed.

Lemma write_report_no_images py_str download_results
    (products : list SutaScraper.product) :
  Forall (λ p, truthy (SutaScraper.image p) = false) products →
  SutaScraper.write_report py_str download_results products
  = Ok (concat ((λ p, output_record py_str p NoImageAvailable) <$> products)).
Proof.
  induction 1 as [|p products Hp _ IH]; [done|].
  simpl. unfold SutaScraper.write_product, SutaScraper.image_line.
  rewrite Hp. simpl. by rewrite IH.
Qed.

(** When no product has an image URL, [save_products] submits nothing:
    whatever the network and the thread pool do, and whatever the
    identifiers are, it writes the report, with "No image available" in
    every record. *)
Theorem save_products_no_images py_str os IMAGE_FOLDER world completed
    (products : list SutaScraper.product) :
  Forall (λ p, truthy (SutaScraper.image p) = false) products →
  SutaScraper.save_products py_str os IMAGE_FOLDER world completed products
  = Ok (concat ((λ p, output_record py_str p NoImageAvailable) <$> products)).
Proof.
  intros Hnone. unfold SutaScraper.save_products.
  rewrite prepare_tasks_filter.
  assert (filter (λ p, truthy (SutaScraper.image p) = true) products = []) as ->.
  { induction Hnone as [|p products Hp _ IH]; [done|].
    rewrite filter_cons, decide_False by by rewrite Hp. done. }
  unfold SutaScraper.download_all, SutaScraper.collect. simpl.
  rewrite collect_loop_no_futures. simpl.
  by apply write_report_no_images.
Qed.

Lemma save_products_no_images_witness :
  SutaScraper.save_products str_of_scalar posixpath "images"
    (λ _, not_found) [3; 1]%nat
    [SutaScraper.Product (JList []) (JStr "Lehenga") (JStr "800.00") JNull
       "https://suta.in/products/lehenga"]
  = Ok (output_record str_of_scalar
          (SutaScraper.Product (JList []) (JStr "Lehenga") (JStr "800.00") JNull
             "https://suta.in/products/lehenga")
          NoImageAvailable ++ []).
Proof.
  apply (save_products_no_images str_of_scalar posixpath "images"
           (λ _, not_found) [3; 1]%nat
           [SutaScraper.Product (JList []) (JStr "Lehenga") (JStr "800.00") JNull
              "https://suta.in/products/lehenga"]).
  by repeat constructor.
Defined.

(** An empty catalogue gives an empty report: when the first page is
    empty, or its request fails with an error that the [except] clause
    catches, and the output file opens and can be closed empty, both
    scripts return having written nothing, and suta_scraper.py downloads
    nothing. *)
Theorem main_empty_catalogue :
  (∀ py_str get fuel out,
     serves (get (page_url Scraper.base_url 1)) []
     ∨ fetch_error (get (page_url Scraper.base_url 1)) →
     output_opens out = true →
     output_stores out [] = true →
     Scraper.main py_str get (S fuel) out = Returns [])
  ∧ (∀ py_str os IMAGE_FOLDER get fuel world completed out,
       serves (get (page_url SutaScraper.base_url 1)) []
       ∨ fetch_error (get (page_url SutaScraper.base_url 1)) →
       output_opens out = true →
       output_stores out [] = true →
       SutaScraper.main py_str os IMAGE_FOLDER get (S fuel) world completed out
       = Returns []).
Proof.
  split.
  - intros py_str get fuel out Hfirst Hopen Hstores.
    pose proof (write_file_ok out [] Hopen ltac:(constructor) Hstores) as Hwrite.
    unfold Scraper.main, Scraper.fetch_products, fetch_products_with.
    destruct Hfirst as [Hfirst|Hfirst].
    + rewrite fetch_loop_empty_page by done. cbn [snd].
      change (Scraper.save_products py_str []) with (@nil string).
      by rewrite Hwrite.
    + rewrite fetch_loop_fetch_error by done. cbn [snd].
      change (Scraper.save_products py_str []) with (@nil string).
      by rewrite Hwrite.
  - intros py_str os IMAGE_FOLDER get fuel world completed out
      Hfirst Hopen Hstores.
    pose proof (write_file_ok out [] Hopen ltac:(constructor) Hstores) as Hwrite.
    unfold SutaScraper.main, SutaScraper.fetch_products, fetch_products_with.
    assert (SutaScraper.save_products py_str os IMAGE_FOLDER world completed []
            = Ok []) as Hsave by by apply save_products_no_images.
    destruct Hfirst as [Hfirst|Hfirst].
    + rewrite fetch_loop_empty_page by done. cbn [snd].
      by rewrite Hsave, Hwrite.
    + rewrite fetch_loop_fetch_error by done. cbn [snd].
      by rewrite Hsave, Hwrite.
Qed.

Lemma main_empty_catalogue_witness :
  Scraper.main str_of_scalar (server Scraper.base_url []) 1 writable = Returns []
  ∧ SutaScraper.main str_of_scalar posixpath "images" (λ _, NoReply) 1
      (λ _, not_found) [] writable = Returns [].
Proof.
  split.
  - apply (proj1 main_empty_catalogue str_of_scalar
             (server Scraper.base_url []) 0%nat writable); [|done|done].
    left. exists 200, (obj [("products", JList [])]).
    split; [done|]. split; [lia | done].
  - apply (proj2 main_empty_catalogue str_of_scalar posixpath "images"
             (λ _, NoReply) 0%nat (λ _, not_found) [] writable); [|done|done].
    by right.
Defined.

(** When one download has not finished within the 60 seconds,
    [save_products] ends with [TimeoutError]: the report is not written,
    not even for the products whose download has finished or that have no
    image. *)
Theorem save_products_timeout py_str os IMAGE_FOLDER world completed
    (products : list SutaScraper.product) (i : nat) :
  Forall hashable_id products →
  (i < length (SutaScraper.prepare_tasks py_str os IMAGE_FOLDER products))%nat →
  i ∉ completed →
  SutaScraper.save_products py_str os IMAGE_FOLDER world completed products
  = Raise TimeoutError.
Proof.
  intros Hids Hi Hpending. unfold SutaScraper.save_products.
  rewrite download_all_hashable by by apply prepare_tasks_hashable.
  by rewrite (all_done_missing _ _ i).
Qed.

Lemma save_products_timeout_witness :
  SutaScraper.save_products str_of_scalar posixpath "images"
    (λ _, all_fine) [] two_records
  = Raise TimeoutError.
Proof.
  apply (save_products_timeout str_of_scalar posixpath "images"
           (λ _, all_fine) [] two_records 0).
  - apply two_records_hashable.
  - simpl. lia.
  - apply not_elem_of_nil.
Defined.

Lemma hash_key_raises v e : hash_key v = Raise e → e = TypeError.
Proof. destruct v; simpl; by intros [= <-]. Qed.

Lemma collect_one_raises f d e :
  SutaScraper.collect_one f d = Raise e → e = TypeError.
Proof.
  unfold SutaScraper.collect_one, SutaScraper.setitem.
  destruct (hash_key (SutaScraper.future_pid f)) as [k|e'] eqn:Hk.
  - by destruct (SutaScraper.future_result f).
  - apply hash_key_raises in Hk as ->.
    destruct (SutaScraper.future_result f); simpl; by intros [= <-].
Qed.

Lemma collect_one_unhashable f d :
  hash_key (SutaScraper.future_pid f) = Raise TypeError →
  SutaScraper.collect_one f d = Raise TypeError.
Proof.
  intros Hk. unfold SutaScraper.collect_one, SutaScraper.setitem.
  rewrite Hk. by destruct (SutaScraper.future_result f).
Qed.

Lemma collect_loop_unhashable futures completed : ∀ d i f,
  i ∈ completed →
  futures !! i = Some f →
  hash_key (SutaScraper.future_pid f) = Raise TypeError →
  (SutaScraper.collect_loop futures completed d).2 = Some TypeError.
Proof.
  induction completed as [|j completed IH]; intros d i f Hin Hi Hk.
  - by apply elem_of_nil in Hin.
  - simpl. destruct (decide (j = i)) as [->|Hne].
    + by rewrite Hi, collect_one_unhashable.
    + assert (i ∈ completed) as Hin'.
      { apply elem_of_cons in Hin as [?|?]; [by subst|done]. }
      destruct (futures !! j) as [f'|]; [|by eapply IH].
      destruct (SutaScraper.collect_one f' d) as [d'|e] eqn:Hone;
        [by eapply IH|].
      by apply collect_one_raises in Hone as ->.
Qed.

Lemma prepare_tasks_elem py_str os IMAGE_FOLDER
    (products : list SutaScraper.product) (p : SutaScraper.product) :
  p ∈ products → truthy (SutaScraper.image p) = true →
  (SutaScraper.id p, SutaScraper.image p,
   SutaScraper.img_path py_str os IMAGE_FOLDER (SutaScraper.id p))
  ∈ SutaScraper.prepare_tasks py_str os IMAGE_FOLDER products.
Proof.
  intros Hin Himage. rewrite prepare_tasks_filter.
  apply list_elem_of_fmap. exists p. split; [done|].
  by apply list_elem_of_filter.
Qed.

(** An identifier that is a list or a dictionary cannot key
    [download_results]: when a product with an image URL has such an
    identifier and every download finishes in time, [save_products] ends
    with [TypeError], raised again by the handler of the collection loop,
    and writes no report. *)
Theorem save_products_unhashable_id py_str os IMAGE_FOLDER world completed
    (products : list SutaScraper.product) (p : SutaScraper.product) :
  p ∈ products →
  truthy (SutaScraper.image p) = true →
  hash_key (SutaScraper.id p) = Raise TypeError →
  completed ≡ₚ seq 0 (length (SutaScraper.prepare_tasks py_str os IMAGE_FOLDER
                                products)) →
  SutaScraper.save_products py_str os IMAGE_FOLDER world completed products
  = Raise TypeError.
Proof.
  intros Hin Himage Hk Hperm.
  pose proof (prepare_tasks_elem py_str os IMAGE_FOLDER _ _ Hin Himage) as Htask.
  apply list_elem_of_lookup_1 in Htask as [i Hi].
  assert (i ∈ completed) as Hdone.
  { rewrite Hperm. apply list_elem_of_In, in_seq.
    apply lookup_lt_Some in Hi. lia. }
  pose proof (submit_all_lookup os world _ _ _ _ _ Hi) as Hf.
  pose proof (collect_loop_unhashable _ _ ∅ _ _ Hdone Hf Hk) as Hloop.
  unfold SutaScraper.save_products, SutaScraper.download_all, SutaScraper.collect.
  destruct (SutaScraper.collect_loop _ completed ∅) as [d [e|]];
    simpl in Hloop; by simplify_eq.
Qed.

Lemma save_products_unhashable_id_witness :
  SutaScraper.save_products str_of_scalar posixpath "images"
    (λ _, all_fine) [0%nat]
    [SutaScraper.Product (JList [JInt 1]) (JStr "Lehenga") (JStr "800.00")
       (JStr "https://cdn.example.com/a/photo.jpg")
       "https://suta.in/products/lehenga"]
  = Raise TypeError.
Proof.
  apply (save_products_unhashable_id str_of_scalar posixpath "images"
           (λ _, all_fine) [0%nat] _
           (SutaScraper.Product (JList [JInt 1]) (JStr "Lehenga") (JStr "800.00")
              (JStr "https://cdn.example.com/a/photo.jpg")
              "https://suta.in/products/lehenga")).
  - apply list_elem_of_singleton. reflexivity.
  - reflexivity.
  - reflexivity.
  - reflexivity.
Defined.

Section stored_any.
Variable futures : list SutaScraper.future.
Variable keys : list key.
Hypothesis Hkeys :
  Forall2 (λ f k, hash_key (SutaScraper.future_pid f) = Ok k) futures keys.

(** The rounds for other keys leave the entry of a key as it is. *)
Lemma foldl_store_untouched l : ∀ d k,
  Forall (λ j, keys !! j ≠ Some k) l →
  foldl (store futures) d l !! k = d !! k.
Proof.
  induction l as [|x l IH]; intros d k Hl; [done|].
  apply Forall_cons in Hl as [Hx Hl]. simpl. rewrite IH by done.
  unfold store. destruct (futures !! x) as [f|] eqn:Hf; [|done].
  destruct (Forall2_lookup_l _ _ _ _ _ Hkeys Hf) as (k' & Hk' & Hhash).
  rewrite Hhash. apply lookup_insert_ne. intros ->. by apply Hx.
Qed.

Lemma foldl_store_last_wins d before after i f k :
  futures !! i = Some f → keys !! i = Some k →
  Forall (λ j, keys !! j ≠ Some k) after →
  foldl (store futures) d (before ++ i :: after) !! k = Some (future_outcome f).
Proof.
  intros Hf Hk Hafter. rewrite foldl_app. simpl.
  rewrite foldl_store_untouched by done.
  unfold store. rewrite Hf.
  destruct (Forall2_lookup_l _ _ _ _ _ Hkeys Hf) as (k' & Hk' & Hhash).
  rewrite Hhash. simplify_eq. apply lookup_insert_eq.
Qed.

Lemma foldl_store_is_Some d l i f k :
  i ∈ l → futures !! i = Some f → keys !! i = Some k →
  is_Some (foldl (store futures) d l !! k).
Proof.
  intros Hin Hf Hk. induction l as [|x l IH] using rev_ind.
  - by apply elem_of_nil in Hin.
  - rewrite store_snoc. unfold store at 1.
    destruct (decide (x = i)) as [->|Hne].
    + rewrite Hf.
      destruct (Forall2_lookup_l _ _ _ _ _ Hkeys Hf) as (k' & Hk' & Hhash).
      rewrite Hhash. simplify_eq. rewrite lookup_insert_eq. by eexists.
    + assert (i ∈ l) as Hl.
      { apply elem_of_app in Hin as [?|?%list_elem_of_singleton]; by subst. }
      destruct (futures !! x) as [f'|] eqn:Hx; [|by apply IH].
      destruct (Forall2_lookup_l _ _ _ _ _ Hkeys Hx) as (k' & Hk' & Hhash).
      rewrite Hhash. destruct (decide (k' = k)) as [->|Hkk].
      * rewrite lookup_insert_eq. by eexists.
      * rewrite lookup_insert_ne by done. by apply IH.
Qed.
End stored_any.

Lemma tasks_hashable (tasks : list (json * json * string)) (keys : list key) :
  Forall2 (λ t k, hash_key t.1.1 = Ok k) tasks keys →
  Forall (λ t : json * json * string, ∃ k, hash_key t.1.1 = Ok k) tasks.
Proof.
  intros Hkeys. apply Forall_lookup_2. intros i t Ht.
  destruct (Forall2_lookup_l _ _ _ _ _ Hkeys Ht) as (k & _ & Hk). by exists k.
Qed.

(** The mapping keeps, under a key, the outcome of the task collected
    last under this key: when two products have the same identifier, it is
    the order in which their downloads finish that decides which outcome
    both get in the report. *)
Theorem download_all_last_wins os world before after
    (tasks : list (json * json * string)) (keys : list key) i pid url path k :
  Forall2 (λ t k, hash_key t.1.1 = Ok k) tasks keys →
  tasks !! i = Some (pid, url, path) →
  keys !! i = Some k →
  Forall (λ j, keys !! j ≠ Some k) after →
  Ok <$> (SutaScraper.download_all os world (before ++ i :: after) tasks).1 !! k
  = Some (SutaScraper.download_image os (world i) url path).2.
Proof.
  intros Hkeys Hi Hk Hafter.
  rewrite download_all_hashable by by eapply tasks_hashable.
  simpl.
  pose proof (submit_all_keys os world _ _ Hkeys) as Hfutures.
  pose proof (submit_all_lookup os world _ _ _ _ _ Hi) as Hf.
  rewrite (foldl_store_last_wins _ _ Hfutures _ _ _ _ _ _ Hf Hk Hafter).
  unfold future_outcome. simpl.
  by destruct (download_image_returns os (world i) url path) as [v ->].
Qed.

Lemma download_all_last_wins_witness :
  (SutaScraper.download_all posixpath first_only [0; 1]%nat same_id_tasks).1
    !! KStr "a"
  = Some (JStr "https://cdn.example.com/a/back.jpg", false)
  ∧ (SutaScraper.download_all posixpath first_only [1; 0]%nat same_id_tasks).1
      !! KStr "a"
    = Some (JStr "images/product_a.jpg", true).
Proof.
  split.
  - pose proof (download_all_last_wins posixpath first_only [0%nat] []
                  same_id_tasks [KStr "a"; KStr "a"] 1 _ _ _ (KStr "a")
                  ltac:(repeat constructor) eq_refl eq_refl
                  ltac:(constructor)) as H.
    change (SutaScraper.download_image _ _ _ _).2
      with (@Ok (json * bool) (JStr "https://cdn.example.com/a/back.jpg", false))
      in H.
    destruct (_ !! KStr "a"); simpl in H; by simplify_eq.
  - pose proof (download_all_last_wins posixpath first_only [1%nat] []
                  same_id_tasks [KStr "a"; KStr "a"] 0 _ _ _ (KStr "a")
                  ltac:(repeat constructor) eq_refl eq_refl
                  ltac:(constructor)) as H.
    change (SutaScraper.download_image _ _ _ _).2
      with (@Ok (json * bool) (JStr "images/product_a.jpg", true)) in H.
    destruct (_ !! KStr "a"); simpl in H; by simplify_eq.
Defined.

Lemma size_list_to_set_le (l : list key) :
  (size (list_to_set l : gset key) ≤ length l)%nat.
Proof.
  induction l as [|k l IH].
  { rewrite list_to_set_nil, size_empty. done. }
  rewrite list_to_set_cons, size_union_alt, size_singleton. simpl.
  pose proof (subseteq_size (list_to_set l ∖ {[k]}) (list_to_set l : gset key)
                ltac:(by apply subseteq_difference_l)).
  lia.
Qed.

Lemma size_list_to_set_NoDup (l : list key) :
  size (list_to_set l : gset key) = length l ↔ NoDup l.
Proof.
  split; [|apply size_list_to_set].
  induction l as [|k l IH]; [constructor|].
  rewrite list_to_set_cons. simpl.
  intros Hsize. pose proof (size_list_to_set_le l) as Hle.
  destruct (decide (k ∈ l)) as [Hin|Hnotin].
  - assert ({[k]} ∪ list_to_set l = (list_to_set l : gset key)) as Heq.
    { apply subseteq_union_1_L, singleton_subseteq_l.
      by apply elem_of_list_to_set. }
    rewrite Heq in Hsize. lia.
  - apply NoDup_cons. split; [done|]. apply IH.
    rewrite size_union, size_singleton in Hsize; [lia|].
    apply disjoint_singleton_l. by rewrite elem_of_list_to_set.
Qed.

(** When every task finishes in time, the keys of the mapping are the
    identifiers of the tasks, whether these are distinct or not: the
    mapping has at most as many keys as there are tasks, and exactly as
    many if and only if the identifiers are pairwise distinct. *)
Theorem download_all_keys os world completed
    (tasks : list (json * json * string)) (keys : list key) :
  Forall2 (λ t k, hash_key t.1.1 = Ok k) tasks keys →
  completed ≡ₚ seq 0 (length tasks) →
  ∃ m, SutaScraper.download_all os world completed tasks = (m, None)
       ∧ dom m = list_to_set keys
       ∧ (size m ≤ length tasks)%nat
       ∧ (size m = length tasks ↔ NoDup keys).
Proof.
  intros Hkeys Hperm.
  pose proof (submit_all_keys os world _ _ Hkeys) as Hfutures.
  pose proof (Forall2_length _ _ _ Hkeys) as Hlen.
  exists (foldl (store (SutaScraper.submit_all os world tasks)) ∅ completed).
  assert (dom (foldl (store (SutaScraper.submit_all os world tasks)) ∅ completed)
          = list_to_set keys) as Hdom.
  { apply set_eq. intros k. rewrite elem_of_dom, elem_of_list_to_set. split.
    - intros [H|H]%(foldl_store_keys _ _ Hfutures); [|done].
      rewrite lookup_empty in H. by destruct H.
    - intros (i & Hi)%list_elem_of_lookup_1.
      destruct (Forall2_lookup_r _ _ _ _ _ Hfutures Hi) as (f & Hf & _).
      apply (foldl_store_is_Some _ _ Hfutures _ _ i f k); try done.
      rewrite Hperm. apply list_elem_of_In, in_seq.
      apply lookup_lt_Some in Hi. lia. }
  split; [|split; [done|split]].
  - rewrite download_all_hashable by by eapply tasks_hashable.
    by rewrite all_done_permutation.
  - rewrite <- size_dom, Hdom, Hlen. apply size_list_to_set_le.
  - rewrite <- size_dom, Hdom, Hlen. apply size_list_to_set_NoDup.
Qed.

Lemma download_all_keys_witness :
  ∃ m, SutaScraper.download_all posixpath first_only [0; 1]%nat same_id_tasks
       = (m, None)
       ∧ dom m = {[ KStr "a" ]}
       ∧ size m = 1%nat.
Proof.
  destruct (download_all_keys posixpath first_only [0; 1]%nat same_id_tasks
              [KStr "a"; KStr "a"])
    as (m & Hm & Hdom & Hle & Hiff).
  - repeat constructor.
  - reflexivity.
  - exists m. split; [exact Hm|].
    assert (dom m = {[ KStr "a" ]}) as Hdom'.
    { rewrite Hdom. simpl.
      rewrite (right_id_L ∅ (∪)). apply (idemp_L (∪)). }
    split; [exact Hdom'|].
    by rewrite <- size_dom, Hdom', size_singleton.
Defined.

